(** * llm_fallbackJS: the fallback client and its provider adapters

    A shallow embedding of [client.ts], [providers.ts] and [exceptions.ts].

    - JavaScript strings are sequences of UTF-16 code units ([list N]);
      JavaScript numbers are IEEE-754 doubles (the kernel's [float]).
    - An [async] method is modelled by its sequential meaning (every call
      is awaited before the next statement runs): a computation that either
      returns a value or throws, and that leaves a trace of the observable
      effects it performed (console output, calls to a vendor SDK).
    - The vendor SDK clients are not part of the repository: each adapter
      owns an oracle that answers the SDK call it makes.  The fields of an
      adapter are never reassigned after construction, and the oracle
      answers a request the same way whenever it is asked during a run.
    - The client's array of providers holds objects of any class that
      extends [LLMProvider]; such a class is an instance of the type class
      [LLMProvider] and the array a list of packed instances. *)

From Corelib Require Import PrimFloat.
From Stdlib Require Import List NArith ZArith Bool String Ascii Lia.
Import ListNotations.

Set Warnings "-inexact-float".

(* ================================================================= *)
(** ** JavaScript values used by the code *)

Module JS.

(** A string is a sequence of UTF-16 code units. *)
Definition jsstring := list N.

(** A string literal of the source (all literals of the code are ASCII). *)
Definition js (s : string) : jsstring :=
  List.map N_of_ascii (list_ascii_of_string s).

(** [s.length > 0] *)
Definition nonempty (s : jsstring) : bool := (0 <? List.length s)%nat.

(** ECMAScript WhiteSpace and LineTerminator code units: what [\s] matches
    in a regular expression without the [u] flag, and what
    [String.prototype.trim] removes. *)
Definition is_whitespace (c : N) : bool :=
  ((c =? 9) || (c =? 10) || (c =? 11) || (c =? 12) || (c =? 13)
   || (c =? 32) || (c =? 160) || (c =? 0x1680)
   || ((0x2000 <=? c) && (c <=? 0x200a))
   || (c =? 0x2028) || (c =? 0x2029) || (c =? 0x202f) || (c =? 0x205f)
   || (c =? 0x3000) || (c =? 0xfeff))%N.

Fixpoint trimStart (s : jsstring) : jsstring :=
  match s with
  | c :: rest => if is_whitespace c then trimStart rest else s
  | [] => []
  end.

Definition trimEnd (s : jsstring) : jsstring := rev (trimStart (rev s)).

(** [s.trim()] *)
Definition trim (s : jsstring) : jsstring := trimEnd (trimStart s).

Definition LT : N := 60. (* '<' *)
Definition GT : N := 62. (* '>' *)
Definition SPACE : N := 32.

(** [s.replace(/<[^>]*>/g, '')].  The pattern matches at a ['<'] exactly
    when some ['>'] follows it, and then runs up to the first such ['>']
    ([[^>]*] cannot step over one); the scan resumes after the match.  A
    ['<'] with no ['>'] after it is kept.  [in_tag] says that the scan is
    inside a match. *)
Fixpoint remove_tags_from (in_tag : bool) (s : jsstring) : jsstring :=
  match s with
  | [] => []
  | c :: rest =>
      if in_tag then
        if (c =? GT)%N then remove_tags_from false rest
        else remove_tags_from true rest
      else if ((c =? LT)%N && existsb (N.eqb GT) rest)%bool then
        remove_tags_from true rest
      else c :: remove_tags_from false rest
  end.

Definition remove_tags (s : jsstring) : jsstring := remove_tags_from false s.

(** [s.replace(/\s+/g, ' ')]: every maximal run of white space becomes one
    space.  [in_run] says that the previous code unit was white space. *)
Fixpoint normalize_whitespace_from (in_run : bool) (s : jsstring) : jsstring :=
  match s with
  | [] => []
  | c :: rest =>
      if is_whitespace c then
        if in_run then normalize_whitespace_from true rest
        else SPACE :: normalize_whitespace_from true rest
      else c :: normalize_whitespace_from false rest
  end.

Definition normalize_whitespace (s : jsstring) : jsstring :=
  normalize_whitespace_from false s.

(** A number is a double.  [0], [-0] and [NaN] are the falsy numbers. *)
Definition number := float.

Definition falsy_number (x : number) : bool :=
  (PrimFloat.eqb x 0%float || negb (PrimFloat.eqb x x))%bool.

(** [x || d] where [x] is a number or [undefined]. *)
Definition number_or (x : option number) (d : number) : number :=
  match x with
  | Some v => if falsy_number v then d else v
  | None => d
  end.

(** [x ?? d] where [x] is a number or [undefined]. *)
Definition number_nullish (x : option number) (d : number) : number :=
  match x with
  | Some v => v
  | None => d
  end.

(** [x || d] where [x] is a string, [undefined] or [null]: the empty
    string is the falsy string. *)
Definition string_or (x : option jsstring) (d : jsstring) : jsstring :=
  match x with
  | Some ((_ :: _) as v) => v
  | _ => d
  end.

(** [a === b] on strings. *)
Fixpoint string_eqb (a b : jsstring) : bool :=
  match a, b with
  | [], [] => true
  | x :: a', y :: b' => ((x =? y)%N && string_eqb a' b')%bool
  | _, _ => false
  end.

(** A value caught by a [catch] clause, as far as the code inspects it:
    whether it is an [Error] (then it has a name and a message), its
    [message] property otherwise, and [response?.status] when that is a
    number.  [null] and [undefined] are not thrown by the SDKs and are
    left out. *)
Inductive thrown : Type :=
| ErrorObject (name message : jsstring) (response_status : option Z)
| OtherValue (message : option jsstring) (response_status : option Z).

(** [error.message] *)
Definition message (e : thrown) : option jsstring :=
  match e with
  | ErrorObject _ m _ => Some m
  | OtherValue m _ => m
  end.

(** [error.response?.status] *)
Definition response_status (e : thrown) : option Z :=
  match e with
  | ErrorObject _ _ s => s
  | OtherValue _ s => s
  end.

(** [error instanceof Error ? error.message : fallback] *)
Definition message_of_Error_or (e : thrown) (fallback : jsstring) : jsstring :=
  match e with
  | ErrorObject _ m _ => m
  | OtherValue _ _ => fallback
  end.

(** [new Error(message)] *)
Definition new_Error (msg : jsstring) : thrown :=
  ErrorObject (js "Error") msg None.

(** [x === n] for a status that is a number or [undefined]. *)
Definition status_is (x : option Z) (n : Z) : bool :=
  match x with
  | Some v => (v =? n)%Z
  | None => false
  end.

End JS.
Import JS.

(* ================================================================= *)
(** ** Computations: return or throw, with a trace of effects *)

Module Eff.

(** How a call ends. *)
Inductive outcome (A : Type) : Type :=
| Returned (a : A)
| Thrown (e : thrown).
Arguments Returned {A} a.
Arguments Thrown {A} e.

(** A computation over events [E]: its outcome and the events it
    performed, oldest first. *)
Definition eff (E A : Type) : Type := (outcome A * list E)%type.

Definition result {E A} (m : eff E A) : outcome A := fst m.
Definition trace {E A} (m : eff E A) : list E := snd m.

Definition ret {E A} (a : A) : eff E A := (Returned a, []).

(** [throw e] *)
Definition throw {E A} (e : thrown) : eff E A := (Thrown e, []).

(** A call that performs no effect of its own. *)
Definition local {E A} (o : outcome A) : eff E A := (o, []).

(** Perform one effect. *)
Definition perform {E} (ev : E) : eff E unit := (Returned tt, [ev]).

(** Sequencing: the rest runs only when the first part returns. *)
Definition bind {E A B} (m : eff E A) (k : A -> eff E B) : eff E B :=
  match result m with
  | Returned a => (result (k a), trace m ++ trace (k a))
  | Thrown e => (Thrown e, trace m)
  end.

(** [try { body } catch (error) { handler }] *)
Definition try_catch {E A} (body : eff E A) (handler : thrown -> eff E A) : eff E A :=
  match result body with
  | Returned a => (Returned a, trace body)
  | Thrown e => (result (handler e), trace body ++ trace (handler e))
  end.

(** Run a computation of one event type inside another. *)
Definition embed {E F A} (f : E -> F) (m : eff E A) : eff F A :=
  (result m, List.map f (trace m)).

End Eff.
Import Eff.

Declare Scope eff_scope.
Delimit Scope eff_scope with eff.
Notation "x <- m ;; k" := (bind m (fun x => k))
  (at level 61, m at next level, right associativity) : eff_scope.
Notation "m ;; k" := (bind m (fun _ => k))
  (at level 61, right associativity) : eff_scope.
Open Scope eff_scope.

(* ================================================================= *)
(** ** Requests sent to the vendor SDKs, and what they answer *)

(** [options?: { model?: string; temperature?: number; max_tokens?: number }] *)
Record Options : Type := {
  model : option jsstring;
  temperature : option number;
  max_tokens : option number
}.

(** [options?.model], [options?.temperature], [options?.max_tokens] *)
Definition opt_model (options : option Options) : option jsstring :=
  match options with Some o => model o | None => None end.
Definition opt_temperature (options : option Options) : option number :=
  match options with Some o => temperature o | None => None end.
Definition opt_max_tokens (options : option Options) : option number :=
  match options with Some o => max_tokens o | None => None end.

(** Argument of [HfInference.textGeneration]. *)
Record TextGenerationArgs : Type := {
  tg_model : jsstring;
  tg_inputs : jsstring;
  tg_max_new_tokens : number;
  tg_temperature : number;
  tg_top_p : number;
  tg_return_full_text : bool
}.

(** [{ role: 'user', content: prompt }] *)
Record ChatMessage : Type := {
  cm_role : jsstring;
  cm_content : jsstring
}.

(** First argument of [OpenAI.chat.completions.create]; [top_p] and
    [stream] are given by one adapter only. *)
Record ChatCompletionParams : Type := {
  cc_model : jsstring;
  cc_messages : list ChatMessage;
  cc_temperature : number;
  cc_max_tokens : number;
  cc_top_p : option number;
  cc_stream : option bool
}.

(** Headers, as (name, value) pairs in the order written. *)
Definition Headers := list (jsstring * jsstring).

(** [{ role: 'user', parts: [{ text: prompt }] }] *)
Record Content : Type := {
  ct_role : jsstring;
  ct_parts : list jsstring
}.

(** The model chosen by [getGenerativeModel] and the argument of
    [generateContent]. *)
Record GenerateContentArgs : Type := {
  gc_model : jsstring;
  gc_contents : list Content;
  gc_temperature : number;
  gc_maxOutputTokens : number;
  gc_topP : number;
  gc_topK : number
}.

(** A call that leaves the process. *)
Inductive Request : Type :=
| HfTextGeneration (args : TextGenerationArgs)
| OpenAIChatCompletion (baseURL : jsstring) (params : ChatCompletionParams)
    (request_headers : option Headers)
| GeminiGenerateContent (args : GenerateContentArgs).

(** What the adapters print: literal text, or the debug object built from
    a caught value. *)
Inductive LogArg : Type :=
| LogText (s : jsstring)
| LogDebug (error : thrown).

(** Observable effects of an adapter. *)
Inductive Effect : Type :=
| ConsoleLog (args : list LogArg)
| ConsoleWarn (args : list LogArg)
| ConsoleError (args : list LogArg)
| Network (request : Request).

(** [console.warn(msg)] and friends. *)
Definition console_log {E} (inj : Effect -> E) (msg : jsstring) : eff E unit :=
  perform (inj (ConsoleLog [LogText msg])).
Definition console_warn (msg : jsstring) : eff Effect unit :=
  perform (ConsoleWarn [LogText msg]).
Definition console_error {E} (inj : Effect -> E) (args : list LogArg) : eff E unit :=
  perform (inj (ConsoleError args)).

(** [await sdk_call(request)]: the request leaves the process and the SDK
    answers with [answer]. *)
Definition await_sdk {A} (request : Request) (answer : outcome A) : eff Effect A :=
  (answer, [Network request]).

(** Answer of [textGeneration]: [{ generated_text }]. *)
Record TextGenerationOutput : Type := {
  generated_text : option jsstring
}.

(** Answer of [chat.completions.create], with every part the code guards
    by [?.] optional. *)
Record ChatCompletionMessage : Type := {
  content : option jsstring
}.
Record ChatCompletionChoice : Type := {
  choice_message : option ChatCompletionMessage
}.
Record ChatCompletion : Type := {
  choices : option (list ChatCompletionChoice)
}.

(** Answer of [generateContent]: [{ response }], where [response.text()]
    returns the text or throws (as the SDK does for a blocked answer). *)
Record GenerateContentResponse : Type := {
  text : outcome (option jsstring)
}.
Record GenerateContentResult : Type := {
  response : option GenerateContentResponse
}.

(* ================================================================= *)
(** ** providers.ts *)

(** [abstract class LLMProvider]: the two abstract methods, and the name of
    the implementing class ([provider.constructor.name], which the client
    prints). *)
Class LLMProvider (P : Type) : Type := {
  constructor_name : jsstring;
  generate : P -> jsstring -> option Options -> eff Effect jsstring;
  isAvailable : P -> eff Effect bool
}.
Arguments constructor_name P {LLMProvider}.

(** The sentinel returned for an empty answer. *)
Definition No_response_generated : jsstring := js "No response generated".

(** What the vendor SDKs do, given how their client was configured: the
    part of the world the adapters talk to. *)
Record SDK : Type := {
  HfInference_textGeneration :
    jsstring -> TextGenerationArgs -> outcome TextGenerationOutput;
  OpenAI_chat_completions_create :
    jsstring -> jsstring -> Headers ->
    ChatCompletionParams -> option Headers -> outcome ChatCompletion;
  GoogleGenerativeAI_generateContent :
    jsstring -> GenerateContentArgs -> outcome GenerateContentResult
}.

(** [process.env], for the four keys the adapters read. *)
Record ProcessEnv : Type := {
  HUGGINGFACE_API_KEY : option jsstring;
  OPENROUTER_API_KEY : option jsstring;
  NVIDIA_API_KEY : option jsstring;
  GEMINI_API_KEY : option jsstring
}.

Module HuggingFaceProvider.

Record t : Type := {
  client : TextGenerationArgs -> outcome TextGenerationOutput;
  apiKey : jsstring;
  modelName : jsstring
}.

(** [constructor(apiKey: string = process.env.HUGGINGFACE_API_KEY || '')] *)
Definition new (sdk : SDK) (env : ProcessEnv) (apiKey : option jsstring) : t :=
  let apiKey :=
    match apiKey with
    | Some k => k
    | None => string_or (HUGGINGFACE_API_KEY env) (js "")
    end in
  {| client := HfInference_textGeneration sdk apiKey;
     apiKey := apiKey;
     modelName := js "mistralai/Mistral-Nemo-Instruct-2407" |}.

Definition isAvailable (self : t) : eff Effect bool :=
  let isValidKey := nonempty (apiKey self) in
  (if negb isValidKey
   then console_warn (js "HuggingFace API key not found in environment variables")
   else ret tt) ;;
  ret isValidKey.

(** The argument of [textGeneration] built by [generate]. *)
Definition request (self : t) (prompt : jsstring) (options : option Options)
  : TextGenerationArgs :=
  {| tg_model := string_or (opt_model options) (modelName self);
     tg_inputs := prompt;
     tg_max_new_tokens := number_or (opt_max_tokens options) 100%float;
     tg_temperature := number_or (opt_temperature options) 0.7%float;
     tg_top_p := 0.95%float;
     tg_return_full_text := false |}.

Definition generate (self : t) (prompt : jsstring) (options : option Options)
  : eff Effect jsstring :=
  available <- isAvailable self ;;
  if negb available then throw (new_Error (js "HuggingFace API key not set"))
  else
    try_catch
      (let args := request self prompt options in
       response <- await_sdk (HfTextGeneration args) (client self args) ;;
       let text := string_or (generated_text response) (js "") in
       let text := trim (normalize_whitespace (remove_tags text)) in
       ret (if nonempty text then text else No_response_generated))
      (fun error =>
         let errorMessage := message_of_Error_or error (js "Unknown error") in
         throw (new_Error (js "HuggingFace API error: " ++ errorMessage))).

End HuggingFaceProvider.

(** An [OpenAI] SDK client: its configuration and what [create] answers. *)
Record OpenAI : Type := {
  baseURL : jsstring;
  client_apiKey : jsstring;
  defaultHeaders : Headers;
  chat_completions_create :
    ChatCompletionParams -> option Headers -> outcome ChatCompletion
}.

(** [new OpenAI({ baseURL, apiKey, defaultHeaders })] *)
Definition new_OpenAI (sdk : SDK) (baseURL apiKey : jsstring) (defaultHeaders : Headers)
  : OpenAI :=
  {| baseURL := baseURL;
     client_apiKey := apiKey;
     defaultHeaders := defaultHeaders;
     chat_completions_create :=
       OpenAI_chat_completions_create sdk baseURL apiKey defaultHeaders |}.

(** [choices[0]?.message?.content] for an array [choices]. *)
Definition first_choice_content (choices : list ChatCompletionChoice)
  : option jsstring :=
  match choices with
  | c :: _ =>
      match choice_message c with
      | Some m => content m
      | None => None
      end
  | [] => None
  end.

(** [optional?.trim()] *)
Definition opt_trim (s : option jsstring) : option jsstring :=
  match s with
  | Some v => Some (trim v)
  | None => None
  end.

Module OpenRouterProvider.

Record SiteInfo : Type := {
  url : jsstring;
  name : jsstring
}.

Record t : Type := {
  client : OpenAI;
  modelName : jsstring;
  siteInfo : SiteInfo
}.

Definition site_headers (siteInfo : SiteInfo) : Headers :=
  [(js "HTTP-Referer", url siteInfo); (js "X-Title", name siteInfo)].

(** [constructor(apiKey = process.env.OPENROUTER_API_KEY || '',
                 siteInfo = { url: 'http://localhost:3000', name: 'LLM Fallback Test' })] *)
Definition new (sdk : SDK) (env : ProcessEnv)
  (apiKey : option jsstring) (siteInfo : option SiteInfo) : t :=
  let apiKey :=
    match apiKey with
    | Some k => k
    | None => string_or (OPENROUTER_API_KEY env) (js "")
    end in
  let siteInfo :=
    match siteInfo with
    | Some s => s
    | None => {| url := js "http://localhost:3000"; name := js "LLM Fallback Test" |}
    end in
  {| client := new_OpenAI sdk (js "https://openrouter.ai/api/v1") apiKey
                 (site_headers siteInfo);
     modelName := js "mistralai/mistral-7b-instruct:free";
     siteInfo := siteInfo |}.

Definition invalid_key : jsstring := js "invalid-key".

Definition isAvailable (self : t) : eff Effect bool :=
  let key := client_apiKey (client self) in
  let isValidKey :=
    (nonempty key && negb (string_eqb key invalid_key))%bool in
  (if negb isValidKey
   then console_warn (js "OpenRouter: Invalid or missing API key")
   else ret tt) ;;
  ret isValidKey.

(** The first argument of [create] built by [generate]. *)
Definition request (self : t) (prompt : jsstring) (options : option Options)
  : ChatCompletionParams :=
  {| cc_model := string_or (opt_model options) (modelName self);
     cc_messages := [ {| cm_role := js "user"; cm_content := prompt |} ];
     cc_temperature := number_nullish (opt_temperature options) 0.7%float;
     cc_max_tokens := number_nullish (opt_max_tokens options) 1000%float;
     cc_top_p := None;
     cc_stream := None |}.

(** [completion.choices?.[0]?.message?.content] *)
Definition completion_content (completion : ChatCompletion) : option jsstring :=
  match choices completion with
  | Some cs => first_choice_content cs
  | None => None
  end.

Definition generate (self : t) (prompt : jsstring) (options : option Options)
  : eff Effect jsstring :=
  available <- isAvailable self ;;
  if negb available then throw (new_Error (js "OpenRouter API key not set"))
  else
    try_catch
      (let params := request self prompt options in
       let headers := Some (site_headers (siteInfo self)) in
       completion <-
         await_sdk (OpenAIChatCompletion (baseURL (client self)) params headers)
           (chat_completions_create (client self) params headers) ;;
       match completion_content completion with
       | Some ((_ :: _) as content) => ret (trim content)
       | _ => throw (new_Error (js "No response content received"))
       end)
      (fun error =>
         let statusCode := response_status error in
         perform (ConsoleError [LogText (js "OpenRouter Debug:"); LogDebug error]) ;;
         if status_is statusCode 401 then
           throw (new_Error (js "OpenRouter authentication failed: Invalid API key"))
         else if status_is statusCode 429 then
           throw (new_Error (js "OpenRouter rate limit exceeded"))
         else
           throw (new_Error (js "OpenRouter error: "
                             ++ string_or (message error) (js "Unknown error")))).

End OpenRouterProvider.

(** The [TypeError] that Node raises for [undefined[0]] (the text is V8's). *)
Definition TypeError_undefined_index : thrown :=
  ErrorObject (js "TypeError")
    (js "Cannot read properties of undefined (reading '0')") None.

Module NvidiaProvider.

Record t : Type := {
  client : OpenAI;
  modelName : jsstring
}.

(** [constructor(apiKey: string = process.env.NVIDIA_API_KEY || '')] *)
Definition new (sdk : SDK) (env : ProcessEnv) (apiKey : option jsstring) : t :=
  let apiKey :=
    match apiKey with
    | Some k => k
    | None => string_or (NVIDIA_API_KEY env) (js "")
    end in
  {| client := new_OpenAI sdk (js "https://integrate.api.nvidia.com/v1") apiKey [];
     modelName := js "meta/llama-3.3-70b-instruct" |}.

Definition isAvailable (self : t) : eff Effect bool :=
  let isValidKey := nonempty (client_apiKey (client self)) in
  (if negb isValidKey
   then console_warn (js "NVIDIA API key not found in environment variables")
   else ret tt) ;;
  ret isValidKey.

(** The argument of [create] built by [generate]. *)
Definition request (self : t) (prompt : jsstring) (options : option Options)
  : ChatCompletionParams :=
  {| cc_model := string_or (opt_model options) (modelName self);
     cc_messages := [ {| cm_role := js "user"; cm_content := prompt |} ];
     cc_temperature := number_or (opt_temperature options) 0.7%float;
     cc_max_tokens := number_or (opt_max_tokens options) 1000%float;
     cc_top_p := Some 0.7%float;
     cc_stream := Some false |}.

(** [completion.choices[0]?.message?.content?.trim()]: indexing throws
    when [choices] is missing. *)
Definition completion_text (completion : ChatCompletion)
  : eff Effect (option jsstring) :=
  match choices completion with
  | Some cs => ret (opt_trim (first_choice_content cs))
  | None => throw TypeError_undefined_index
  end.

Definition generate (self : t) (prompt : jsstring) (options : option Options)
  : eff Effect jsstring :=
  available <- isAvailable self ;;
  if negb available then throw (new_Error (js "NVIDIA API key not set"))
  else
    try_catch
      (let params := request self prompt options in
       completion <-
         await_sdk (OpenAIChatCompletion (baseURL (client self)) params None)
           (chat_completions_create (client self) params None) ;;
       response <- completion_text completion ;;
       ret (string_or response No_response_generated))
      (fun error =>
         let errorMessage := message_of_Error_or error (js "Unknown error") in
         throw (new_Error (js "NVIDIA API error: " ++ errorMessage))).

End NvidiaProvider.

(** A [GoogleGenerativeAI] SDK client. *)
Record GoogleGenerativeAI : Type := {
  gemini_apiKey : jsstring;
  generateContent : GenerateContentArgs -> outcome GenerateContentResult
}.

Module GeminiProvider.

Record t : Type := {
  client : GoogleGenerativeAI;
  modelName : jsstring
}.

(** [constructor(apiKey: string = process.env.GEMINI_API_KEY || '')] *)
Definition new (sdk : SDK) (env : ProcessEnv) (apiKey : option jsstring) : t :=
  let apiKey :=
    match apiKey with
    | Some k => k
    | None => string_or (GEMINI_API_KEY env) (js "")
    end in
  {| client := {| gemini_apiKey := apiKey;
                  generateContent := GoogleGenerativeAI_generateContent sdk apiKey |};
     modelName := js "gemini-1.5-flash" |}.

Definition isAvailable (self : t) : eff Effect bool :=
  let isValidKey := nonempty (gemini_apiKey (client self)) in
  (if negb isValidKey
   then console_warn (js "Gemini API key not found in environment variables")
   else ret tt) ;;
  ret isValidKey.

(** The model picked by [getGenerativeModel] and the argument of
    [generateContent] built by [generate]. *)
Definition request (self : t) (prompt : jsstring) (options : option Options)
  : GenerateContentArgs :=
  {| gc_model := string_or (opt_model options) (modelName self);
     gc_contents := [ {| ct_role := js "user"; ct_parts := [prompt] |} ];
     gc_temperature := number_or (opt_temperature options) 0.7%float;
     gc_maxOutputTokens := number_or (opt_max_tokens options) 1000%float;
     gc_topP := 0.95%float;
     gc_topK := 64%float |}.

(** [result.response?.text()?.trim()] *)
Definition result_text (result : GenerateContentResult)
  : eff Effect (option jsstring) :=
  match response result with
  | Some r => s <- local (text r) ;; ret (opt_trim s)
  | None => ret None
  end.

Definition generate (self : t) (prompt : jsstring) (options : option Options)
  : eff Effect jsstring :=
  available <- isAvailable self ;;
  if negb available then throw (new_Error (js "Gemini API key not set"))
  else
    let args := request self prompt options in
    try_catch
      (result <- await_sdk (GeminiGenerateContent args)
                   (generateContent (client self) args) ;;
       response <- result_text result ;;
       ret (string_or response No_response_generated))
      (fun error =>
         let errorMessage := message_of_Error_or error (js "Unknown error") in
         throw (new_Error (js "Gemini API error: " ++ errorMessage))).

End GeminiProvider.

#[export] Instance HuggingFace_LLMProvider : LLMProvider HuggingFaceProvider.t := {
  constructor_name := js "HuggingFaceProvider";
  generate := HuggingFaceProvider.generate;
  isAvailable := HuggingFaceProvider.isAvailable
}.

#[export] Instance OpenRouter_LLMProvider : LLMProvider OpenRouterProvider.t := {
  constructor_name := js "OpenRouterProvider";
  generate := OpenRouterProvider.generate;
  isAvailable := OpenRouterProvider.isAvailable
}.

#[export] Instance Nvidia_LLMProvider : LLMProvider NvidiaProvider.t := {
  constructor_name := js "NvidiaProvider";
  generate := NvidiaProvider.generate;
  isAvailable := NvidiaProvider.isAvailable
}.

#[export] Instance Gemini_LLMProvider : LLMProvider GeminiProvider.t := {
  constructor_name := js "GeminiProvider";
  generate := GeminiProvider.generate;
  isAvailable := GeminiProvider.isAvailable
}.

(** An object of some class that extends [LLMProvider]: what the client's
    array holds. *)
Record provider : Type := Provider {
  provider_class : Type;
  provider_methods : LLMProvider provider_class;
  provider_self : provider_class
}.
Arguments Provider {provider_class provider_methods} provider_self.

Definition provider_name (p : provider) : jsstring :=
  @constructor_name (provider_class p) (provider_methods p).
Definition provider_isAvailable (p : provider) : eff Effect bool :=
  @isAvailable _ (provider_methods p) (provider_self p).
Definition provider_generate (p : provider) (prompt : jsstring)
  (options : option Options) : eff Effect jsstring :=
  @generate _ (provider_methods p) (provider_self p) prompt options.

(* ================================================================= *)
(** ** exceptions.ts *)

(** [new AllProvidersFailedError(message)]: an [Error] whose [name] is
    ['AllProvidersFailedError']; it has no field besides the message. *)
Definition new_AllProvidersFailedError (msg : jsstring) : thrown :=
  ErrorObject (js "AllProvidersFailedError") msg None.

(* ================================================================= *)
(** ** client.ts *)

(** What a run of the client does, seen from outside: the method calls it
    makes on [providers[i]], the effects performed inside those calls, and
    its own console output. *)
Inductive ClientEvent : Type :=
| Call_isAvailable (i : nat)
| Call_generate (i : nat) (prompt : jsstring) (options : option Options)
| Inside (i : nat) (e : Effect)
| Own (e : Effect).

Module LLMClient.

Record t : Type := {
  providers : list provider
}.

(** The default list of the constructor, in its order. *)
Definition default_providers (sdk : SDK) (env : ProcessEnv) : list provider :=
  [ Provider (OpenRouterProvider.new sdk env None None);
    Provider (HuggingFaceProvider.new sdk env None);
    Provider (NvidiaProvider.new sdk env None);
    Provider (GeminiProvider.new sdk env None) ].

(** [constructor(providers?: LLMProvider[])]: any array given, even an
    empty one, is truthy and kept. *)
Definition new (sdk : SDK) (env : ProcessEnv) (providers : option (list provider)) : t :=
  match providers with
  | Some ps => {| providers := ps |}
  | None => {| providers := default_providers sdk env |}
  end.

(** [provider.isAvailable()] on the entry at index [i]. *)
Definition call_isAvailable (i : nat) (p : provider) : eff ClientEvent bool :=
  perform (Call_isAvailable i) ;;
  embed (Inside i) (provider_isAvailable p).

(** [await provider.generate(prompt, options)] on the entry at index [i]. *)
Definition call_generate (i : nat) (p : provider) (prompt : jsstring)
  (options : option Options) : eff ClientEvent jsstring :=
  perform (Call_generate i prompt options) ;;
  embed (Inside i) (provider_generate p prompt options).

(** One turn of the [for ... of] loop of [generate], on the entry at index
    [i]: [Some result] when the turn leaves the method by [return result],
    [None] when the loop goes on ([continue], or the end of the [catch]
    clause). *)
Definition attempt (i : nat) (p : provider) (prompt : jsstring)
  (options : option Options) : eff ClientEvent (option jsstring) :=
  available <- call_isAvailable i p ;;
  if negb available then ret None
  else
    try_catch
      (result <- call_generate i p prompt options ;;
       console_log Own (js "Successfully used " ++ provider_name p) ;;
       ret (Some result))
      (fun error =>
         let errorMessage :=
           message_of_Error_or error (js "Unknown error occurred") in
         console_error Own
           [LogText (provider_name p ++ js " failed: " ++ errorMessage)] ;;
         ret None).

(** The loop over the entries [ps], the first of which has index [i]. *)
Fixpoint for_of (i : nat) (ps : list provider) (prompt : jsstring)
  (options : option Options) : eff ClientEvent (option jsstring) :=
  match ps with
  | [] => ret None
  | p :: rest =>
      returned <- attempt i p prompt options ;;
      match returned with
      | Some result => ret (Some result)
      | None => for_of (S i) rest prompt options
      end
  end.

(** The error thrown after the loop. *)
Definition All_LLM_providers_failed : thrown :=
  new_AllProvidersFailedError (js "All LLM providers failed").

Definition generate (self : t) (prompt : jsstring) (options : option Options)
  : eff ClientEvent jsstring :=
  returned <- for_of 0 (providers self) prompt options ;;
  match returned with
  | Some result => ret result
  | None => throw All_LLM_providers_failed
  end.

(** [this.providers.push(provider)].  The array is extended in place; the
    model keeps the client's own view of it. *)
Definition addProvider (self : t) (p : provider) : t :=
  {| providers := providers self ++ [p] |}.

(** [this.providers = providers] *)
Definition setProviders (self : t) (ps : list provider) : t :=
  {| providers := ps |}.

End LLMClient.

(* ================================================================= *)
(** ** Reading a run *)

(** The provider index an event belongs to; the client's own output
    belongs to none. *)
Definition event_index (ev : ClientEvent) : option nat :=
  match ev with
  | Call_isAvailable i => Some i
  | Call_generate i _ _ => Some i
  | Inside i _ => Some i
  | Own _ => None
  end.

(** The entries whose [isAvailable] was called, in the order of the calls. *)
Fixpoint considered (tr : list ClientEvent) : list nat :=
  match tr with
  | Call_isAvailable i :: rest => i :: considered rest
  | _ :: rest => considered rest
  | [] => []
  end.

(** The entries whose [generate] was called, in the order of the calls. *)
Fixpoint invoked (tr : list ClientEvent) : list nat :=
  match tr with
  | Call_generate i _ _ :: rest => i :: invoked rest
  | _ :: rest => invoked rest
  | [] => []
  end.

(** What the client itself printed with [console.log]: the lines of its
    success path. *)
Fixpoint success_lines (tr : list ClientEvent) : list (list LogArg) :=
  match tr with
  | Own (ConsoleLog args) :: rest => args :: success_lines rest
  | _ :: rest => success_lines rest
  | [] => []
  end.

(** Every event of [tr] that belongs to a provider belongs to one whose
    index satisfies [ok]. *)
Definition indices_all (ok : nat -> bool) (tr : list ClientEvent) : bool :=
  forallb (fun ev => match event_index ev with Some k => ok k | None => true end) tr.

(** The requests an adapter sent to its SDK. *)
Fixpoint sent (tr : list Effect) : list Request :=
  match tr with
  | Network r :: rest => r :: sent rest
  | _ :: rest => sent rest
  | [] => []
  end.

(** The provider is skipped ([isAvailable()] is false) or its [generate]
    throws. *)
Definition unavailable_or_fails (p : provider) (prompt : jsstring)
  (options : option Options) : bool :=
  match result (provider_isAvailable p) with
  | Returned false => true
  | Returned true =>
      match result (provider_generate p prompt options) with
      | Thrown _ => true
      | Returned _ => false
      end
  | Thrown _ => false
  end.

(** The provider is available and its [generate] returns: the text it
    returns. *)
Definition succeeds (p : provider) (prompt : jsstring)
  (options : option Options) : option jsstring :=
  match result (provider_isAvailable p) with
  | Returned true =>
      match result (provider_generate p prompt options) with
      | Returned r => Some r
      | Thrown _ => None
      end
  | _ => None
  end.

(** [!x] for a string, [undefined] or [null]: the answer is empty. *)
Definition empty_answer (x : option jsstring) : bool :=
  match x with
  | Some (_ :: _) => false
  | _ => true
  end.

(* ================================================================= *)
(** ** Test doubles and sample inputs *)

(** A provider with a fixed availability and a fixed answer, as a test
    would inject. *)
Module StubProvider.

Record t : Type := {
  available : bool;
  answer : outcome jsstring
}.

Definition isAvailable (self : t) : eff Effect bool := ret (available self).

Definition generate (self : t) (prompt : jsstring) (options : option Options)
  : eff Effect jsstring := local (answer self).

End StubProvider.

#[export] Instance Stub_LLMProvider : LLMProvider StubProvider.t := {
  constructor_name := js "StubProvider";
  generate := StubProvider.generate;
  isAvailable := StubProvider.isAvailable
}.

Definition stub_ok (s : string) : provider :=
  Provider {| StubProvider.available := true;
              StubProvider.answer := Returned (js s) |}.
Definition stub_unavailable : provider :=
  Provider {| StubProvider.available := false;
              StubProvider.answer := Returned (js "never asked") |}.
Definition stub_failing (s : string) : provider :=
  Provider {| StubProvider.available := true;
              StubProvider.answer := Thrown (new_Error (js s)) |}.

(** A provider whose [generate] throws a value that is not an [Error]. *)
Definition stub_throwing_value : provider :=
  Provider {| StubProvider.available := true;
              StubProvider.answer := Thrown (OtherValue None None) |}.

(** A provider whose [isAvailable] itself throws. *)
Module BrokenProvider.

Record t : Type := {
  failure : thrown
}.

Definition isAvailable (self : t) : eff Effect bool := throw (failure self).

Definition generate (self : t) (prompt : jsstring) (options : option Options)
  : eff Effect jsstring := throw (failure self).

End BrokenProvider.

#[export] Instance Broken_LLMProvider : LLMProvider BrokenProvider.t := {
  constructor_name := js "BrokenProvider";
  generate := BrokenProvider.generate;
  isAvailable := BrokenProvider.isAvailable
}.

Definition stub_broken (s : string) : provider :=
  Provider {| BrokenProvider.failure := new_Error (js s) |}.

(** An SDK whose every call answers the same thing. *)
Definition sdk_answering (hf : outcome TextGenerationOutput)
  (chat : outcome ChatCompletion) (gemini : outcome GenerateContentResult) : SDK :=
  {| HfInference_textGeneration := fun _ _ => hf;
     OpenAI_chat_completions_create := fun _ _ _ _ _ => chat;
     GoogleGenerativeAI_generateContent := fun _ _ => gemini |}.

(** A chat completion with one choice of the given content. *)
Definition completion_of (c : option jsstring) : ChatCompletion :=
  {| choices := Some [ {| choice_message := Some {| content := c |} |} ] |}.

(** A Gemini result whose text is the given one. *)
Definition gemini_result_of (c : option jsstring) : GenerateContentResult :=
  {| response := Some {| text := Returned c |} |}.

(** An SDK that answers every call with empty content. *)
Definition sdk_empty : SDK :=
  sdk_answering (Returned {| generated_text := Some (js "") |})
    (Returned (completion_of (Some (js ""))))
    (Returned (gemini_result_of (Some (js "")))).

(** An SDK that answers every call with the text ["Hello"]. *)
Definition sdk_hello : SDK :=
  sdk_answering (Returned {| generated_text := Some (js "Hello") |})
    (Returned (completion_of (Some (js "Hello"))))
    (Returned (gemini_result_of (Some (js "Hello")))).

(** An SDK whose calls throw an error with the given [response.status]. *)
Definition sdk_status (status : Z) : SDK :=
  let e := ErrorObject (js "Error") (js "Request failed") (Some status) in
  sdk_answering (Thrown e) (Thrown e) (Thrown e).

(** The errors with which the [openai] client (version 4) rejects a call
    answered with HTTP status 401 or 429: [Error] objects whose message
    begins with the status code.  They carry the code in a property
    [status] of their own and have no property [response], so
    [error.response?.status] is [undefined] for them. *)
Definition openai_401 : thrown :=
  ErrorObject (js "Error") (js "401 No auth credentials found") None.
Definition openai_429 : thrown :=
  ErrorObject (js "Error") (js "429 Rate limit exceeded") None.

(** An SDK whose every call throws the given value. *)
Definition sdk_throwing (e : thrown) : SDK :=
  sdk_answering (Thrown e) (Thrown e) (Thrown e).

(** A process environment with no key, and one with all four keys. *)
Definition env_empty : ProcessEnv :=
  {| HUGGINGFACE_API_KEY := None; OPENROUTER_API_KEY := None;
     NVIDIA_API_KEY := None; GEMINI_API_KEY := None |}.
Definition env_keys : ProcessEnv :=
  {| HUGGINGFACE_API_KEY := Some (js "hf_key");
     OPENROUTER_API_KEY := Some (js "or_key");
     NVIDIA_API_KEY := Some (js "nv_key");
     GEMINI_API_KEY := Some (js "gm_key") |}.

Definition options_zero : Options :=
  {| model := None; temperature := Some 0%float; max_tokens := Some 0%float |}.
Definition options_model (m : string) : Options :=
  {| model := Some (js m); temperature := None; max_tokens := None |}.

(** [lo <= k < hi] *)
Definition in_range (lo hi k : nat) : bool := ((lo <=? k) && (k <? hi))%bool.

(** Sample inputs. *)
Definition x : jsstring := js "x".

(* ================================================================= *)
(** ** More ways to read a run, and shapes of text *)

(** [isAvailable()] of the provider returns, true or false: it does not
    throw. *)
Definition availability_known (p : provider) : bool :=
  match result (provider_isAvailable p) with
  | Returned _ => true
  | Thrown _ => false
  end.

(** [isAvailable()] of the provider returns true. *)
Definition available (p : provider) : bool :=
  match result (provider_isAvailable p) with
  | Returned true => true
  | _ => false
  end.

(** The entry at index [k] of [ps] exists and is available. *)
Definition available_at (ps : list provider) (k : nat) : bool :=
  match nth_error ps k with
  | Some p => available p
  | None => false
  end.

(** What the client itself printed with [console.error]: the lines of its
    [catch] clause. *)
Fixpoint failure_lines (tr : list ClientEvent) : list (list LogArg) :=
  match tr with
  | Own (ConsoleError args) :: rest => args :: failure_lines rest
  | _ :: rest => failure_lines rest
  | [] => []
  end.

(** The line the client prints when it has called [generate] on the
    provider and the call threw; nothing for a provider that is skipped or
    whose call returns. *)
Definition failure_line_of (p : provider) (prompt : jsstring)
  (options : option Options) : list (list LogArg) :=
  if available p then
    match result (provider_generate p prompt options) with
    | Thrown error =>
        [[LogText (provider_name p ++ js " failed: "
                   ++ message_of_Error_or error (js "Unknown error occurred"))]]
    | Returned _ => []
    end
  else [].

(** The requests that left the process during a run of the client, each
    with the index of the provider that sent it. *)
Fixpoint requests (tr : list ClientEvent) : list (nat * Request) :=
  match tr with
  | Inside i (Network r) :: rest => (i, r) :: requests rest
  | _ :: rest => requests rest
  | [] => []
  end.

(** The arguments of the calls of [generate] made on providers. *)
Fixpoint forwarded (tr : list ClientEvent) : list (jsstring * option Options) :=
  match tr with
  | Call_generate _ prompt options :: rest => (prompt, options) :: forwarded rest
  | _ :: rest => forwarded rest
  | [] => []
  end.


Fixpoint errors (tr : list Effect) : list (list LogArg) :=
  match tr with
  | ConsoleError args :: rest => args :: errors rest
  | _ :: rest => errors rest
  | [] => []
  end.

(** The string does not begin with white space. *)
Definition starts_clean (s : jsstring) : bool :=
  match s with
  | c :: _ => negb (is_whitespace c)
  | [] => true
  end.

(** The string neither begins nor ends with white space. *)
Definition trimmed (s : jsstring) : bool :=
  (starts_clean s && starts_clean (rev s))%bool.

(** Some ['<'] of the string is followed, anywhere later, by a ['>']: the
    pattern [/<[^>]*>/] matches somewhere. *)
Fixpoint has_tag (s : jsstring) : bool :=
  match s with
  | [] => false
  | c :: rest => (((c =? LT)%N && existsb (N.eqb GT) rest) || has_tag rest)%bool
  end.

(** Every white space of the string is a space that is not followed by
    white space. *)
Fixpoint single_spaced (s : jsstring) : bool :=
  match s with
  | [] => true
  | c :: rest =>
      ((if is_whitespace c then ((c =? SPACE)%N && starts_clean rest)%bool else true)
       && single_spaced rest)%bool
  end.

(** [s.startsWith(prefix)] *)
Definition starts_with (prefix s : jsstring) : bool :=
  string_eqb (firstn (List.length prefix) s) prefix.

(** The cleaning applied by the HuggingFace adapter to the generated text:
    [text.replace(/<[^>]*>/g, '').replace(/\s+/g, ' ').trim()]. *)
Definition clean (text : jsstring) : jsstring :=
  trim (normalize_whitespace (remove_tags text)).

(** The key is one the OpenRouter adapter accepts: not empty and not the
    marker ['invalid-key']. *)
Definition OpenRouter_key_ok (key : jsstring) : bool :=
  (nonempty key && negb (string_eqb key OpenRouterProvider.invalid_key))%bool.

(** The environment variable is set to a non-empty string: [!!value]. *)
Definition is_set (value : option jsstring) : bool := negb (empty_answer value).

(** [addProvider] called once for each provider of [qs], in order. *)
Definition addProviders (self : LLMClient.t) (qs : list provider) : LLMClient.t :=
  fold_left LLMClient.addProvider qs self.

(* ================================================================= *)
(** ** The model on sample inputs *)

Example clean_sample :
  trim (normalize_whitespace (remove_tags (js "  <b>Hi</b>   there <i x=1> a < b  ")))
  = js "Hi there a < b".
Proof. reflexivity. Qed.

Example remove_tags_sample : remove_tags (js "a<b<c>d>e<f") = js "ad>e<f".
Proof. reflexivity. Qed.

Example trim_sample : trim [9; 10; 0xfeff; 97; 32; 98; 160; 13]%N = [97; 32; 98]%N.
Proof. reflexivity. Qed.

Example falsy_numbers :
  falsy_number 0%float = true
  /\ falsy_number (-0)%float = true
  /\ falsy_number nan = true
  /\ falsy_number 0.7%float = false.
Proof. repeat split; reflexivity. Qed.

Example default_order (sdk : SDK) (env : ProcessEnv) :
  List.map provider_name (LLMClient.providers (LLMClient.new sdk env None))
  = [js "OpenRouterProvider"; js "HuggingFaceProvider"; js "NvidiaProvider";
     js "GeminiProvider"].
Proof. reflexivity. Qed.

Example default_client_no_keys :
  LLMClient.generate (LLMClient.new sdk_hello env_empty None) x None
  = (Thrown (new_AllProvidersFailedError (js "All LLM providers failed")),
     [ Call_isAvailable 0;
       Inside 0 (ConsoleWarn [LogText (js "OpenRouter: Invalid or missing API key")]);
       Call_isAvailable 1;
       Inside 1 (ConsoleWarn
         [LogText (js "HuggingFace API key not found in environment variables")]);
       Call_isAvailable 2;
       Inside 2 (ConsoleWarn
         [LogText (js "NVIDIA API key not found in environment variables")]);
       Call_isAvailable 3;
       Inside 3 (ConsoleWarn
         [LogText (js "Gemini API key not found in environment variables")]) ]).
Proof. reflexivity. Qed.

Example default_client_empty_answers :
  result (LLMClient.generate (LLMClient.new sdk_empty env_keys None) x None)
  = Returned No_response_generated
  /\ invoked (trace (LLMClient.generate (LLMClient.new sdk_empty env_keys None) x None))
     = [0; 1].
Proof. split; reflexivity. Qed.

(* ================================================================= *)
(** ** Laws of the computations *)

Section EffLaws.
Context {E A B C : Type}.

Lemma bind_ret_l (a : A) (k : A -> eff E B) : bind (ret a) k = k a.
Proof. unfold bind, ret; simpl. now destruct (k a). Qed.

Lemma bind_assoc (m : eff E A) (k : A -> eff E B) (h : B -> eff E C) :
  bind (bind m k) h = bind m (fun a => bind (k a) h).
Proof.
  destruct m as [[a|e] tr]; unfold bind; simpl; [|reflexivity].
  destruct (k a) as [[b|e] tr']; simpl; [|reflexivity].
  now rewrite app_assoc.
Qed.

Lemma result_bind (m : eff E A) (k : A -> eff E B) :
  result (bind m k) =
  match result m with Returned a => result (k a) | Thrown e => Thrown e end.
Proof. unfold bind. now destruct (result m). Qed.

Lemma trace_bind_returned (m : eff E A) (k : A -> eff E B) (a : A) :
  result m = Returned a -> trace (bind m k) = trace m ++ trace (k a).
Proof. unfold bind. now intros ->. Qed.

End EffLaws.

Section Observers.

Lemma considered_app (a b : list ClientEvent) :
  considered (a ++ b) = considered a ++ considered b.
Proof.
  induction a as [|ev a IH]; simpl; [reflexivity|].
  destruct ev; simpl; now rewrite IH.
Qed.

Lemma invoked_app (a b : list ClientEvent) :
  invoked (a ++ b) = invoked a ++ invoked b.
Proof.
  induction a as [|ev a IH]; simpl; [reflexivity|].
  destruct ev; simpl; now rewrite IH.
Qed.

Lemma success_lines_app (a b : list ClientEvent) :
  success_lines (a ++ b) = success_lines a ++ success_lines b.
Proof.
  induction a as [|ev a IH]; simpl; [reflexivity|].
  destruct ev as [ | | |[ | | | ]]; simpl; now rewrite IH.
Qed.

Lemma indices_all_app ok (a b : list ClientEvent) :
  indices_all ok (a ++ b) = (indices_all ok a && indices_all ok b)%bool.
Proof. apply forallb_app. Qed.

Lemma considered_Inside i (tr : list Effect) : considered (map (Inside i) tr) = [].
Proof. induction tr; simpl; auto. Qed.

Lemma invoked_Inside i (tr : list Effect) : invoked (map (Inside i) tr) = [].
Proof. induction tr; simpl; auto. Qed.

Lemma success_lines_Inside i (tr : list Effect) : success_lines (map (Inside i) tr) = [].
Proof. induction tr; simpl; auto. Qed.

Lemma indices_all_Inside ok i (tr : list Effect) :
  ok i = true -> indices_all ok (map (Inside i) tr) = true.
Proof. intros H. induction tr; simpl; auto. now rewrite H. Qed.

Lemma indices_all_weaken (ok ok' : nat -> bool) tr :
  (forall k, ok k = true -> ok' k = true) ->
  indices_all ok tr = true -> indices_all ok' tr = true.
Proof.
  intros H. unfold indices_all. rewrite !forallb_forall.
  intros H0 ev Hin. specialize (H0 ev Hin). destruct (event_index ev); auto.
Qed.

End Observers.

Create Rewrite HintDb observers.
#[export] Hint Rewrite considered_app invoked_app success_lines_app indices_all_app
  considered_Inside invoked_Inside success_lines_Inside : observers.

(* ================================================================= *)
(** ** The client: one turn of the loop *)

Import LLMClient.

(** Unfold the computations down to pairs. *)
Ltac run_eff :=
  unfold attempt, call_isAvailable, call_generate, console_log, console_error,
    console_warn, await_sdk, bind, try_catch, ret, throw, perform, embed, local,
    result, trace in *;
  simpl in *.

Section Attempt.
Variables (i : nat) (p : provider) (prompt : jsstring) (options : option Options).

Lemma attempt_indices :
  indices_all (Nat.eqb i) (trace (attempt i p prompt options)) = true.
Proof.
  unfold attempt, call_isAvailable, call_generate.
  destruct (provider_isAvailable p) as [[[|]|e] tr1];
    destruct (provider_generate p prompt options) as [[r|e'] tr2];
    run_eff; rewrite ?Nat.eqb_refl; simpl;
    repeat (rewrite ?indices_all_app, ?indices_all_Inside, ?Nat.eqb_refl; simpl);
    auto using Nat.eqb_refl.
Qed.

Lemma attempt_skips :
  unavailable_or_fails p prompt options = true ->
  result (attempt i p prompt options) = Returned None
  /\ considered (trace (attempt i p prompt options)) = [i]
  /\ success_lines (trace (attempt i p prompt options)) = [].
Proof.
  unfold unavailable_or_fails, attempt, call_isAvailable, call_generate.
  destruct (provider_isAvailable p) as [[[|]|e] tr1];
    destruct (provider_generate p prompt options) as [[r|e'] tr2];
    run_eff; intros H; try discriminate;
    repeat (autorewrite with observers; simpl); auto.
Qed.

Lemma attempt_succeeds (r : jsstring) :
  succeeds p prompt options = Some r ->
  result (attempt i p prompt options) = Returned (Some r)
  /\ considered (trace (attempt i p prompt options)) = [i]
  /\ invoked (trace (attempt i p prompt options)) = [i]
  /\ success_lines (trace (attempt i p prompt options))
     = [[LogText (js "Successfully used " ++ provider_name p)]].
Proof.
  unfold succeeds, attempt, call_isAvailable, call_generate.
  destruct (provider_isAvailable p) as [[[|]|e] tr1];
    destruct (provider_generate p prompt options) as [[r'|e'] tr2];
    run_eff; intros H; try discriminate; injection H as ->;
    repeat (autorewrite with observers; simpl); auto.
Qed.

End Attempt.

(* ================================================================= *)
(** ** The client: the loop *)

Section Loop.
Variables (prompt : jsstring) (options : option Options).

Lemma for_of_app (ps qs : list provider) (i : nat) :
  for_of i (ps ++ qs) prompt options =
  bind (for_of i ps prompt options)
    (fun returned =>
       match returned with
       | Some result => ret (Some result)
       | None => for_of (i + List.length ps) qs prompt options
       end).
Proof.
  revert i. induction ps as [|p ps IH]; intros i; simpl.
  - rewrite bind_ret_l. now rewrite Nat.add_0_r.
  - rewrite bind_assoc.
    destruct (attempt i p prompt options) as [[[x|]|e] tr]; unfold bind; simpl;
      try reflexivity.
    rewrite IH. now rewrite Nat.add_succ_r.
Qed.

Lemma for_of_indices (ps : list provider) (i : nat) :
  indices_all (in_range i (i + List.length ps)) (trace (for_of i ps prompt options)) = true.
Proof.
  revert i. induction ps as [|p ps IH]; intros i; simpl; [reflexivity|].
  pose proof (attempt_indices i p prompt options) as Hp.
  specialize (IH (S i)).
  assert (Hnow : indices_all (in_range i (i + S (List.length ps)))
                   (trace (attempt i p prompt options)) = true).
  { revert Hp. apply indices_all_weaken. intros k Hk.
    apply Nat.eqb_eq in Hk. subst k. unfold in_range.
    apply andb_true_iff. split; [apply Nat.leb_le | apply Nat.ltb_lt]; lia. }
  assert (Hlater : indices_all (in_range i (i + S (List.length ps)))
                     (trace (for_of (S i) ps prompt options)) = true).
  { revert IH. apply indices_all_weaken. intros k. unfold in_range.
    rewrite !andb_true_iff, !Nat.leb_le, !Nat.ltb_lt. lia. }
  destruct (attempt i p prompt options) as [[[x|]|e] tr]; unfold bind; simpl in *;
    rewrite ?indices_all_app, ?Hnow, ?Hlater; simpl; auto.
Qed.

Lemma for_of_exhausted (ps : list provider) (i : nat) :
  forallb (fun p => unavailable_or_fails p prompt options) ps = true ->
  result (for_of i ps prompt options) = Returned None
  /\ considered (trace (for_of i ps prompt options)) = seq i (List.length ps)
  /\ success_lines (trace (for_of i ps prompt options)) = [].
Proof.
  revert i. induction ps as [|p ps IH]; intros i H; simpl in *; [auto|].
  apply andb_true_iff in H. destruct H as [Hp Hps].
  destruct (attempt_skips i p prompt options Hp) as (Hr & Hc & Hs).
  destruct (IH (S i) Hps) as (Hr' & Hc' & Hs').
  rewrite result_bind, Hr.
  rewrite (trace_bind_returned _ _ _ Hr), considered_app, success_lines_app.
  now rewrite Hr', Hc, Hc', Hs, Hs'.
Qed.

Lemma for_of_first_success (pre post : list provider) (p : provider)
  (r : jsstring) (i : nat) :
  forallb (fun q => unavailable_or_fails q prompt options) pre = true ->
  succeeds p prompt options = Some r ->
  for_of i (pre ++ p :: post) prompt options =
  (Returned (Some r),
   trace (for_of i pre prompt options)
   ++ trace (attempt (i + List.length pre) p prompt options)).
Proof.
  intros Hpre Hp. rewrite for_of_app.
  destruct (for_of_exhausted pre i Hpre) as (Hr & _).
  destruct (attempt_succeeds (i + List.length pre) p prompt options r Hp) as (Hr' & _).
  simpl.
  destruct (for_of i pre prompt options) as [o tr].
  destruct (attempt (i + List.length pre) p prompt options) as [o' tr'].
  unfold result, trace, bind in *; simpl in *. subst o o'. simpl.
  now rewrite app_nil_r.
Qed.

End Loop.

(* ================================================================= *)
(** ** The client: [generate], [addProvider], [setProviders] *)

Lemma trace_generate (self : LLMClient.t) (prompt : jsstring) (options : option Options) :
  trace (LLMClient.generate self prompt options)
  = trace (for_of 0 (providers self) prompt options).
Proof.
  unfold LLMClient.generate.
  destruct (for_of 0 (providers self) prompt options) as [[[r|]|e] tr];
    unfold bind; simpl; auto using app_nil_r.
Qed.

Lemma result_generate (self : LLMClient.t) (prompt : jsstring) (options : option Options) :
  result (LLMClient.generate self prompt options)
  = match result (for_of 0 (providers self) prompt options) with
    | Returned (Some r) => Returned r
    | Returned None => Thrown All_LLM_providers_failed
    | Thrown e => Thrown e
    end.
Proof.
  unfold LLMClient.generate.
  now destruct (for_of 0 (providers self) prompt options) as [[[r|]|e] tr].
Qed.

(** A list splits around its entry at a given index. *)
Lemma split_at_index (ps : list provider) (n : nat) (p : provider) :
  nth_error ps n = Some p ->
  ps = firstn n ps ++ p :: skipn (S n) ps /\ List.length (firstn n ps) = n.
Proof.
  revert n. induction ps as [|q ps IH]; intros [|n] H; simpl in *; try discriminate.
  - injection H as ->. auto.
  - destruct (IH n H) as [Heq Hlen]. split; [now rewrite <- Heq | now rewrite Hlen].
Qed.

(** C1, as stated, fails: in the list [ok "a"; unavailable; ok "42"] the
    provider at index 1 is unavailable and the provider at index 2
    succeeds with ["42"], yet [generate] returns ["a"], the answer of the
    provider at index 0, and never reaches index 2. *)
Lemma earlier_success_wins :
  nth_error [stub_ok "a"; stub_unavailable; stub_ok "42"] 1 = Some stub_unavailable
  /\ unavailable_or_fails stub_unavailable x None = true
  /\ nth_error [stub_ok "a"; stub_unavailable; stub_ok "42"] 2 = Some (stub_ok "42")
  /\ succeeds (stub_ok "42") x None = Some (js "42")
  /\ result (LLMClient.generate
               {| providers := [stub_ok "a"; stub_unavailable; stub_ok "42"] |} x None)
     = Returned (js "a")
  /\ Returned (js "a") <> Returned (A := jsstring) (js "42")
  /\ considered (trace (LLMClient.generate
               {| providers := [stub_ok "a"; stub_unavailable; stub_ok "42"] |} x None))
     = [0].
Proof. repeat split; try reflexivity. discriminate. Qed.

(** C1 (amended): when every provider up to and including index [i] is
    unavailable or fails and the provider at index [i+1] succeeds,
    [generate] returns the result of provider [i+1]; the providers
    [0 .. i+1] are each considered once, in order; the only success path
    that executes is that of provider [i+1]; and no provider after [i+1]
    is consulted in any way. *)
Theorem generate_returns_first_success
  (self : LLMClient.t) (i : nat) (next : provider) (r : jsstring)
  (prompt : jsstring) (options : option Options) :
  forallb (fun q => unavailable_or_fails q prompt options)
    (firstn (S i) (providers self)) = true ->
  nth_error (providers self) (S i) = Some next ->
  succeeds next prompt options = Some r ->
  result (LLMClient.generate self prompt options) = Returned r
  /\ considered (trace (LLMClient.generate self prompt options)) = seq 0 (S (S i))
  /\ success_lines (trace (LLMClient.generate self prompt options))
     = [[LogText (js "Successfully used " ++ provider_name next)]]
  /\ indices_all (fun k => k <=? S i)
       (trace (LLMClient.generate self prompt options)) = true.
Proof.
  intros Hpre Hnth Hnext.
  destruct (split_at_index _ _ _ Hnth) as [Hsplit Hlen].
  set (pre := firstn (S i) (providers self)) in *.
  pose proof (for_of_first_success prompt options pre (skipn (S (S i)) (providers self))
                next r 0 Hpre Hnext) as Hrun.
  rewrite <- Hsplit, Hlen in Hrun. change (0 + S i) with (S i) in Hrun.
  assert (Hres : result (for_of 0 (providers self) prompt options) = Returned (Some r))
    by now rewrite Hrun.
  assert (Htr : trace (for_of 0 (providers self) prompt options)
                = trace (for_of 0 pre prompt options)
                  ++ trace (attempt (S i) next prompt options))
    by now rewrite Hrun.
  rewrite result_generate, trace_generate, Hres, Htr.
  destruct (for_of_exhausted prompt options pre 0 Hpre) as (_ & Hc & Hs).
  destruct (attempt_succeeds (S i) next prompt options r Hnext) as (_ & Hc' & _ & Hs').
  rewrite Hlen in Hc.
  autorewrite with observers. rewrite Hc, Hc', Hs, Hs'.
  repeat split.
  - change [S i] with (seq (0 + S i) 1). rewrite <- seq_app. f_equal. lia.
  - apply andb_true_iff. split.
    + pose proof (for_of_indices prompt options pre 0) as Hi.
      rewrite Hlen in Hi. revert Hi. apply indices_all_weaken.
      intros k. unfold in_range. rewrite andb_true_iff, Nat.leb_le, Nat.ltb_lt, Nat.leb_le.
      lia.
    + pose proof (attempt_indices (S i) next prompt options) as Hi.
      revert Hi. apply indices_all_weaken.
      intros k Hk. apply Nat.eqb_eq in Hk. subst k. apply Nat.leb_refl.
Qed.

(** The scenario of the specification: [A] unavailable, [B] fails with
    "rate limit exceeded", [C] succeeds with "42". *)
Lemma generate_returns_first_success_witness :
  result (LLMClient.generate
            {| providers := [stub_unavailable; stub_failing "rate limit exceeded";
                             stub_ok "42"; stub_ok "43"] |} x None)
  = Returned (js "42")
  /\ considered (trace (LLMClient.generate
            {| providers := [stub_unavailable; stub_failing "rate limit exceeded";
                             stub_ok "42"; stub_ok "43"] |} x None))
     = [0; 1; 2]
  /\ success_lines (trace (LLMClient.generate
            {| providers := [stub_unavailable; stub_failing "rate limit exceeded";
                             stub_ok "42"; stub_ok "43"] |} x None))
     = [[LogText (js "Successfully used StubProvider")]]
  /\ indices_all (fun k => k <=? 2) (trace (LLMClient.generate
            {| providers := [stub_unavailable; stub_failing "rate limit exceeded";
                             stub_ok "42"; stub_ok "43"] |} x None)) = true.
Proof.
  apply (generate_returns_first_success
           {| providers := [stub_unavailable; stub_failing "rate limit exceeded";
                            stub_ok "42"; stub_ok "43"] |}
           1 (stub_ok "42") (js "42") x None);
    reflexivity.
Defined.

(** C3, as stated, fails: the error thrown for the empty list (no
    provider tried) and the one thrown after one provider was tried are
    the same value, whose whole content is a name and the fixed message;
    it holds no count. *)
Lemma aggregate_error_holds_no_count :
  result (LLMClient.generate {| providers := [] |} x None)
  = result (LLMClient.generate {| providers := [stub_failing "boom"] |} x None)
  /\ invoked (trace (LLMClient.generate {| providers := [] |} x None)) = []
  /\ invoked (trace (LLMClient.generate {| providers := [stub_failing "boom"] |} x None))
     = [0]
  /\ result (LLMClient.generate {| providers := [] |} x None)
     = Thrown (ErrorObject (js "AllProvidersFailedError")
                 (js "All LLM providers failed") None).
Proof. repeat split; reflexivity. Qed.

(** C3 (amended): when the list is exhausted with no success, the error
    thrown is the [AllProvidersFailedError] whose only content is the
    fixed message "All LLM providers failed", whatever the number of
    providers tried; for the empty list this same error is thrown and
    nothing at all was attempted. *)
Theorem aggregate_error_is_generic :
  (forall (self : LLMClient.t) (prompt : jsstring) (options : option Options),
      forallb (fun p => unavailable_or_fails p prompt options) (providers self) = true ->
      result (LLMClient.generate self prompt options)
      = Thrown (ErrorObject (js "AllProvidersFailedError")
                  (js "All LLM providers failed") None))
  /\ (forall (prompt : jsstring) (options : option Options),
         LLMClient.generate {| providers := [] |} prompt options
         = (Thrown (ErrorObject (js "AllProvidersFailedError")
                      (js "All LLM providers failed") None), [])).
Proof.
  split.
  - intros self prompt options H.
    destruct (for_of_exhausted prompt options (providers self) 0 H) as (Hr & _).
    now rewrite result_generate, Hr.
  - reflexivity.
Qed.

Lemma aggregate_error_is_generic_witness :
  result (LLMClient.generate
            {| providers := [stub_failing "a"; stub_unavailable; stub_failing "b"] |}
            x None)
  = Thrown (ErrorObject (js "AllProvidersFailedError")
              (js "All LLM providers failed") None).
Proof.
  apply (proj1 aggregate_error_is_generic
           {| providers := [stub_failing "a"; stub_unavailable; stub_failing "b"] |}
           x None).
  reflexivity.
Defined.

(** C6: after [setProviders([])], [generate] throws the
    [AllProvidersFailedError] at once: its trace is empty, no provider
    method was called. *)
Theorem setProviders_empty_then_generate
  (self : LLMClient.t) (prompt : jsstring) (options : option Options) :
  providers (setProviders self []) = []
  /\ LLMClient.generate (setProviders self []) prompt options
     = (Thrown (new_AllProvidersFailedError (js "All LLM providers failed")), [])
  /\ considered (trace (LLMClient.generate (setProviders self []) prompt options)) = []
  /\ invoked (trace (LLMClient.generate (setProviders self []) prompt options)) = [].
Proof. repeat split; reflexivity. Qed.

(* ================================================================= *)
(** ** The adapters *)

(** Unfold an adapter's methods and split on the validity of its key. *)
Ltac by_key key :=
  unfold HuggingFaceProvider.generate, HuggingFaceProvider.isAvailable,
    OpenRouterProvider.generate, OpenRouterProvider.isAvailable,
    NvidiaProvider.generate, NvidiaProvider.isAvailable,
    GeminiProvider.generate, GeminiProvider.isAvailable in *;
  destruct key eqn:?; run_eff.

(** C7: in each of the four adapters, [generate] called while
    [isAvailable()] is false throws the adapter's "API key not set" error
    and sends nothing to the SDK. *)
Theorem generate_unconfigured :
  (forall (self : HuggingFaceProvider.t) (prompt : jsstring) (options : option Options),
      result (HuggingFaceProvider.isAvailable self) = Returned false ->
      result (HuggingFaceProvider.generate self prompt options)
      = Thrown (new_Error (js "HuggingFace API key not set"))
      /\ sent (trace (HuggingFaceProvider.generate self prompt options)) = [])
  /\ (forall (self : OpenRouterProvider.t) (prompt : jsstring) (options : option Options),
         result (OpenRouterProvider.isAvailable self) = Returned false ->
         result (OpenRouterProvider.generate self prompt options)
         = Thrown (new_Error (js "OpenRouter API key not set"))
         /\ sent (trace (OpenRouterProvider.generate self prompt options)) = [])
  /\ (forall (self : NvidiaProvider.t) (prompt : jsstring) (options : option Options),
         result (NvidiaProvider.isAvailable self) = Returned false ->
         result (NvidiaProvider.generate self prompt options)
         = Thrown (new_Error (js "NVIDIA API key not set"))
         /\ sent (trace (NvidiaProvider.generate self prompt options)) = [])
  /\ (forall (self : GeminiProvider.t) (prompt : jsstring) (options : option Options),
         result (GeminiProvider.isAvailable self) = Returned false ->
         result (GeminiProvider.generate self prompt options)
         = Thrown (new_Error (js "Gemini API key not set"))
         /\ sent (trace (GeminiProvider.generate self prompt options)) = []).
Proof.
  split; [|split; [|split]]; intros self prompt options H.
  - by_key (nonempty (HuggingFaceProvider.apiKey self));
      [discriminate | split; reflexivity].
  - by_key (nonempty (client_apiKey (OpenRouterProvider.client self))
            && negb (string_eqb (client_apiKey (OpenRouterProvider.client self))
                       OpenRouterProvider.invalid_key))%bool;
      [discriminate | split; reflexivity].
  - by_key (nonempty (client_apiKey (NvidiaProvider.client self)));
      [discriminate | split; reflexivity].
  - by_key (nonempty (gemini_apiKey (GeminiProvider.client self)));
      [discriminate | split; reflexivity].
Qed.

(** Adapters built with no key in the environment, and an OpenRouter
    adapter built with the key 'invalid-key'. *)
Lemma generate_unconfigured_witness :
  result (HuggingFaceProvider.generate
            (HuggingFaceProvider.new sdk_hello env_empty None) x None)
  = Thrown (new_Error (js "HuggingFace API key not set"))
  /\ result (OpenRouterProvider.generate
               (OpenRouterProvider.new sdk_hello env_keys (Some (js "invalid-key")) None)
               x None)
     = Thrown (new_Error (js "OpenRouter API key not set"))
  /\ sent (trace (NvidiaProvider.generate
                    (NvidiaProvider.new sdk_hello env_empty None) x None)) = []
  /\ result (GeminiProvider.generate
               (GeminiProvider.new sdk_hello env_empty None) x None)
     = Thrown (new_Error (js "Gemini API key not set")).
Proof.
  destruct generate_unconfigured as (Hhf & Hor & Hnv & Hgm).
  split; [|split; [|split]].
  - apply (Hhf (HuggingFaceProvider.new sdk_hello env_empty None) x None). reflexivity.
  - apply (Hor (OpenRouterProvider.new sdk_hello env_keys (Some (js "invalid-key")) None)
             x None). reflexivity.
  - apply (Hnv (NvidiaProvider.new sdk_hello env_empty None) x None). reflexivity.
  - apply (Hgm (GeminiProvider.new sdk_hello env_empty None) x None). reflexivity.
Defined.

Lemma string_or_nonempty (v : option jsstring) (d : jsstring) :
  d <> [] -> string_or v d <> [].
Proof. destruct v as [[|c s]|]; simpl; auto; discriminate. Qed.

Lemma string_or_empty (v : option jsstring) (d : jsstring) :
  empty_answer v = true -> string_or v d = d.
Proof. destruct v as [[|c s]|]; simpl; auto; discriminate. Qed.

Lemma opt_trim_empty (v : option jsstring) :
  empty_answer v = true -> empty_answer (opt_trim v) = true.
Proof. destruct v as [[|c s]|]; simpl; auto; discriminate. Qed.

Lemma No_response_generated_nonempty : No_response_generated <> [].
Proof. discriminate. Qed.

(** C4, as stated, fails for the OpenRouter adapter: with a valid key and
    an SDK that answers with an empty content field, its [generate] throws
    instead of returning the sentinel. *)
Lemma OpenRouter_empty_content_throws :
  result (OpenRouterProvider.isAvailable
            (OpenRouterProvider.new sdk_empty env_keys None None)) = Returned true
  /\ OpenAI_chat_completions_create sdk_empty (js "https://openrouter.ai/api/v1")
       (js "or_key")
       (OpenRouterProvider.site_headers
          (OpenRouterProvider.siteInfo
             (OpenRouterProvider.new sdk_empty env_keys None None)))
       (OpenRouterProvider.request
          (OpenRouterProvider.new sdk_empty env_keys None None) x None)
       (Some (OpenRouterProvider.site_headers
                (OpenRouterProvider.siteInfo
                   (OpenRouterProvider.new sdk_empty env_keys None None))))
     = Returned (completion_of (Some (js "")))
  /\ result (OpenRouterProvider.generate
               (OpenRouterProvider.new sdk_empty env_keys None None) x None)
     = Thrown (new_Error (js "OpenRouter error: No response content received")).
Proof. repeat split; reflexivity. Qed.

(** C4 (amended): in the HuggingFace, NVIDIA and Gemini adapters an empty
    answer of the SDK is turned into the non-empty sentinel
    "No response generated" and returned as a success, and a [generate] of
    these adapters that returns never returns the empty string; the
    OpenRouter adapter throws "OpenRouter error: No response content
    received" when the content is missing or empty. *)
Theorem empty_answer_handling :
  No_response_generated <> []
  /\ (forall (self : HuggingFaceProvider.t) prompt options out,
         result (HuggingFaceProvider.isAvailable self) = Returned true ->
         HuggingFaceProvider.client self (HuggingFaceProvider.request self prompt options)
         = Returned out ->
         empty_answer (generated_text out) = true ->
         result (HuggingFaceProvider.generate self prompt options)
         = Returned No_response_generated)
  /\ (forall (self : NvidiaProvider.t) prompt options completion cs,
         result (NvidiaProvider.isAvailable self) = Returned true ->
         chat_completions_create (NvidiaProvider.client self)
           (NvidiaProvider.request self prompt options) None
         = Returned completion ->
         choices completion = Some cs ->
         empty_answer (first_choice_content cs) = true ->
         result (NvidiaProvider.generate self prompt options)
         = Returned No_response_generated)
  /\ (forall (self : GeminiProvider.t) prompt options res,
         result (GeminiProvider.isAvailable self) = Returned true ->
         generateContent (GeminiProvider.client self)
           (GeminiProvider.request self prompt options)
         = Returned res ->
         match response res with
         | Some r => exists c, text r = Returned c /\ empty_answer c = true
         | None => True
         end ->
         result (GeminiProvider.generate self prompt options)
         = Returned No_response_generated)
  /\ (forall (self : HuggingFaceProvider.t) prompt options s,
         result (HuggingFaceProvider.generate self prompt options) = Returned s ->
         s <> [])
  /\ (forall (self : NvidiaProvider.t) prompt options s,
         result (NvidiaProvider.generate self prompt options) = Returned s ->
         s <> [])
  /\ (forall (self : GeminiProvider.t) prompt options s,
         result (GeminiProvider.generate self prompt options) = Returned s ->
         s <> [])
  /\ (forall (self : OpenRouterProvider.t) prompt options completion,
         result (OpenRouterProvider.isAvailable self) = Returned true ->
         chat_completions_create (OpenRouterProvider.client self)
           (OpenRouterProvider.request self prompt options)
           (Some (OpenRouterProvider.site_headers (OpenRouterProvider.siteInfo self)))
         = Returned completion ->
         empty_answer (OpenRouterProvider.completion_content completion) = true ->
         result (OpenRouterProvider.generate self prompt options)
         = Thrown (new_Error (js "OpenRouter error: No response content received"))).
Proof.
  split; [exact No_response_generated_nonempty|].
  split; [|split; [|split; [|split; [|split; [|split]]]]].
  - intros self prompt options out Hav Hsdk Hempty.
    by_key (nonempty (HuggingFaceProvider.apiKey self)); [|discriminate].
    rewrite Hsdk. simpl. now rewrite (string_or_empty _ _ Hempty).
  - intros self prompt options completion cs Hav Hsdk Hcs Hempty.
    by_key (nonempty (client_apiKey (NvidiaProvider.client self))); [|discriminate].
    rewrite Hsdk. simpl. unfold NvidiaProvider.completion_text. rewrite Hcs. simpl.
    now rewrite (string_or_empty _ _ (opt_trim_empty _ Hempty)).
  - intros self prompt options res Hav Hsdk Hempty.
    by_key (nonempty (gemini_apiKey (GeminiProvider.client self))); [|discriminate].
    rewrite Hsdk. simpl. unfold GeminiProvider.result_text.
    destruct (response res) as [r|]; [|reflexivity].
    destruct Hempty as (c & Hc & Hempty). run_eff. rewrite Hc. simpl.
    now rewrite (string_or_empty _ _ (opt_trim_empty _ Hempty)).
  - intros self prompt options s.
    by_key (nonempty (HuggingFaceProvider.apiKey self)); [|discriminate].
    destruct (HuggingFaceProvider.client self _) as [out|e]; simpl; [|discriminate].
    intros H. injection H as <-.
    destruct (trim _) as [|c t]; simpl; discriminate.
  - intros self prompt options s.
    by_key (nonempty (client_apiKey (NvidiaProvider.client self))); [|discriminate].
    destruct (chat_completions_create _ _ _) as [completion|e]; simpl; [|discriminate].
    unfold NvidiaProvider.completion_text.
    destruct (choices completion) as [cs|]; simpl; [|discriminate].
    intros H. injection H as <-.
    apply string_or_nonempty, No_response_generated_nonempty.
  - intros self prompt options s.
    by_key (nonempty (gemini_apiKey (GeminiProvider.client self))); [|discriminate].
    destruct (generateContent _ _) as [res|e]; simpl; [|discriminate].
    unfold GeminiProvider.result_text.
    destruct (response res) as [r|]; run_eff.
    + destruct (text r) as [c|e]; simpl; [|discriminate].
      intros H. injection H as <-.
      apply string_or_nonempty, No_response_generated_nonempty.
    + intros H. injection H as <-. discriminate.
  - intros self prompt options completion Hav Hsdk Hempty.
    by_key (nonempty (client_apiKey (OpenRouterProvider.client self))
            && negb (string_eqb (client_apiKey (OpenRouterProvider.client self))
                       OpenRouterProvider.invalid_key))%bool; [|discriminate].
    rewrite Hsdk. simpl.
    destruct (OpenRouterProvider.completion_content completion) as [[|c s]|];
      simpl in *; try discriminate; reflexivity.
Qed.

(** The four adapters built with all keys set, facing an SDK that answers
    with empty content. *)
Lemma empty_answer_handling_witness :
  result (HuggingFaceProvider.generate
            (HuggingFaceProvider.new sdk_empty env_keys None) x None)
  = Returned No_response_generated
  /\ result (NvidiaProvider.generate
               (NvidiaProvider.new sdk_empty env_keys None) x None)
     = Returned No_response_generated
  /\ result (GeminiProvider.generate
               (GeminiProvider.new sdk_empty env_keys None) x None)
     = Returned No_response_generated
  /\ js "Hello" <> []
  /\ result (OpenRouterProvider.generate
               (OpenRouterProvider.new sdk_empty env_keys None None) x None)
     = Thrown (new_Error (js "OpenRouter error: No response content received")).
Proof.
  destruct empty_answer_handling as (_ & Hhf & Hnv & Hgm & Hhf' & _ & _ & Hor).
  split; [|split; [|split; [|split]]].
  - apply (Hhf (HuggingFaceProvider.new sdk_empty env_keys None) x None
             {| generated_text := Some (js "") |}); reflexivity.
  - apply (Hnv (NvidiaProvider.new sdk_empty env_keys None) x None
             (completion_of (Some (js "")))
             [ {| choice_message := Some {| content := Some (js "") |} |} ]);
      reflexivity.
  - apply (Hgm (GeminiProvider.new sdk_empty env_keys None) x None
             (gemini_result_of (Some (js ""))));
      [reflexivity | reflexivity | exists (Some (js "")); split; reflexivity].
  - apply (Hhf' (HuggingFaceProvider.new sdk_hello env_keys None) x None (js "Hello")).
    reflexivity.
  - apply (Hor (OpenRouterProvider.new sdk_empty env_keys None None) x None
             (completion_of (Some (js "")))); reflexivity.
Defined.

(** The OpenRouter adapter tests the content before trimming it: content
    made of white space only passes the test and is returned trimmed. *)
Remark OpenRouter_trims_after_the_test :
  result (OpenRouterProvider.generate
            (OpenRouterProvider.new
               (sdk_answering (Returned {| generated_text := None |})
                  (Returned (completion_of (Some (js "  "))))
                  (Returned (gemini_result_of None)))
               env_keys None None) x None)
  = Returned (js "").
Proof. reflexivity. Qed.

(** When its key is valid, an adapter sends exactly one request, the one
    built by its [request]. *)
Lemma HuggingFace_sends (self : HuggingFaceProvider.t) prompt options :
  result (HuggingFaceProvider.isAvailable self) = Returned true ->
  sent (trace (HuggingFaceProvider.generate self prompt options))
  = [HfTextGeneration (HuggingFaceProvider.request self prompt options)].
Proof.
  intros Hav.
  by_key (nonempty (HuggingFaceProvider.apiKey self)); [|discriminate].
  now destruct (HuggingFaceProvider.client self _) as [out|e].
Qed.

Lemma OpenRouter_sends (self : OpenRouterProvider.t) prompt options :
  result (OpenRouterProvider.isAvailable self) = Returned true ->
  sent (trace (OpenRouterProvider.generate self prompt options))
  = [OpenAIChatCompletion (baseURL (OpenRouterProvider.client self))
       (OpenRouterProvider.request self prompt options)
       (Some (OpenRouterProvider.site_headers (OpenRouterProvider.siteInfo self)))].
Proof.
  intros Hav.
  by_key (nonempty (client_apiKey (OpenRouterProvider.client self))
          && negb (string_eqb (client_apiKey (OpenRouterProvider.client self))
                     OpenRouterProvider.invalid_key))%bool; [|discriminate].
  destruct (chat_completions_create _ _ _) as [completion|e]; simpl.
  - destruct (OpenRouterProvider.completion_content completion) as [[|c s]|];
      reflexivity.
  - destruct (status_is (response_status e) 401); [reflexivity|].
    now destruct (status_is (response_status e) 429).
Qed.

Lemma Nvidia_sends (self : NvidiaProvider.t) prompt options :
  result (NvidiaProvider.isAvailable self) = Returned true ->
  sent (trace (NvidiaProvider.generate self prompt options))
  = [OpenAIChatCompletion (baseURL (NvidiaProvider.client self))
       (NvidiaProvider.request self prompt options) None].
Proof.
  intros Hav.
  by_key (nonempty (client_apiKey (NvidiaProvider.client self))); [|discriminate].
  destruct (chat_completions_create _ _ _) as [completion|e]; simpl; [|reflexivity].
  unfold NvidiaProvider.completion_text.
  now destruct (choices completion).
Qed.

Lemma Gemini_sends (self : GeminiProvider.t) prompt options :
  result (GeminiProvider.isAvailable self) = Returned true ->
  sent (trace (GeminiProvider.generate self prompt options))
  = [GeminiGenerateContent (GeminiProvider.request self prompt options)].
Proof.
  intros Hav.
  by_key (nonempty (gemini_apiKey (GeminiProvider.client self))); [|discriminate].
  destruct (generateContent _ _) as [res|e]; simpl; [|reflexivity].
  unfold GeminiProvider.result_text.
  destruct (response res) as [r|]; run_eff; [|reflexivity].
  now destruct (text r).
Qed.

(** C8, as stated, fails for an explicit empty model: with a valid key and
    the option [model: ''], the HuggingFace adapter sends its built-in
    model identifier, not the given one. *)
Lemma empty_model_does_not_override :
  opt_model (Some (options_model "")) = Some (js "")
  /\ result (HuggingFaceProvider.isAvailable
               (HuggingFaceProvider.new sdk_hello env_keys None)) = Returned true
  /\ sent (trace (HuggingFaceProvider.generate
                    (HuggingFaceProvider.new sdk_hello env_keys None) x
                    (Some (options_model ""))))
     = [HfTextGeneration
          {| tg_model := js "mistralai/Mistral-Nemo-Instruct-2407";
             tg_inputs := x;
             tg_max_new_tokens := 100%float;
             tg_temperature := 0.7%float;
             tg_top_p := 0.95%float;
             tg_return_full_text := false |}]
  /\ js "mistralai/Mistral-Nemo-Instruct-2407" <> js "".
Proof. repeat split; try reflexivity. discriminate. Qed.

(** C8 (amended): an adapter with a valid key sends one request; when the
    temperature is absent from the options the request has temperature
    0.7; when the maximum token count is absent the request has 100
    (HuggingFace) or 1000 (OpenRouter, NVIDIA, Gemini); an explicit
    non-empty model is the model of the request, and with no model, or
    with the empty string as model, the adapter's built-in one is. *)
Theorem option_defaults :
  (forall (self : HuggingFaceProvider.t) prompt options,
      result (HuggingFaceProvider.isAvailable self) = Returned true ->
      exists args,
        sent (trace (HuggingFaceProvider.generate self prompt options))
        = [HfTextGeneration args]
        /\ (opt_temperature options = None -> tg_temperature args = 0.7%float)
        /\ (opt_max_tokens options = None -> tg_max_new_tokens args = 100%float)
        /\ (forall m, opt_model options = Some m -> m <> [] -> tg_model args = m)
        /\ (opt_model options = None ->
            tg_model args = HuggingFaceProvider.modelName self)
        /\ (opt_model options = Some [] ->
            tg_model args = HuggingFaceProvider.modelName self))
  /\ (forall (self : OpenRouterProvider.t) prompt options,
         result (OpenRouterProvider.isAvailable self) = Returned true ->
         exists params,
           sent (trace (OpenRouterProvider.generate self prompt options))
           = [OpenAIChatCompletion (baseURL (OpenRouterProvider.client self)) params
                (Some (OpenRouterProvider.site_headers
                         (OpenRouterProvider.siteInfo self)))]
           /\ (opt_temperature options = None -> cc_temperature params = 0.7%float)
           /\ (opt_max_tokens options = None -> cc_max_tokens params = 1000%float)
           /\ (forall m, opt_model options = Some m -> m <> [] -> cc_model params = m)
           /\ (opt_model options = None ->
               cc_model params = OpenRouterProvider.modelName self)
           /\ (opt_model options = Some [] ->
               cc_model params = OpenRouterProvider.modelName self))
  /\ (forall (self : NvidiaProvider.t) prompt options,
         result (NvidiaProvider.isAvailable self) = Returned true ->
         exists params,
           sent (trace (NvidiaProvider.generate self prompt options))
           = [OpenAIChatCompletion (baseURL (NvidiaProvider.client self)) params None]
           /\ (opt_temperature options = None -> cc_temperature params = 0.7%float)
           /\ (opt_max_tokens options = None -> cc_max_tokens params = 1000%float)
           /\ (forall m, opt_model options = Some m -> m <> [] -> cc_model params = m)
           /\ (opt_model options = None ->
               cc_model params = NvidiaProvider.modelName self)
           /\ (opt_model options = Some [] ->
               cc_model params = NvidiaProvider.modelName self))
  /\ (forall (self : GeminiProvider.t) prompt options,
         result (GeminiProvider.isAvailable self) = Returned true ->
         exists args,
           sent (trace (GeminiProvider.generate self prompt options))
           = [GeminiGenerateContent args]
           /\ (opt_temperature options = None -> gc_temperature args = 0.7%float)
           /\ (opt_max_tokens options = None -> gc_maxOutputTokens args = 1000%float)
           /\ (forall m, opt_model options = Some m -> m <> [] -> gc_model args = m)
           /\ (opt_model options = None ->
               gc_model args = GeminiProvider.modelName self)
           /\ (opt_model options = Some [] ->
               gc_model args = GeminiProvider.modelName self)).
Proof.
  assert (Hmodel : forall o d m, o = Some m -> m <> [] -> string_or o d = m).
  { intros o d [|c s] -> H; [now destruct H | reflexivity]. }
  split; [|split; [|split]]; intros self prompt options Hav.
  - exists (HuggingFaceProvider.request self prompt options).
    split; [now apply HuggingFace_sends|]. simpl.
    repeat split; try (intros ->; reflexivity). intros m; apply Hmodel.
  - exists (OpenRouterProvider.request self prompt options).
    split; [now apply OpenRouter_sends|]. simpl.
    repeat split; try (intros ->; reflexivity). intros m; apply Hmodel.
  - exists (NvidiaProvider.request self prompt options).
    split; [now apply Nvidia_sends|]. simpl.
    repeat split; try (intros ->; reflexivity). intros m; apply Hmodel.
  - exists (GeminiProvider.request self prompt options).
    split; [now apply Gemini_sends|]. simpl.
    repeat split; try (intros ->; reflexivity). intros m; apply Hmodel.
Qed.

(** No options for the HuggingFace adapter; the model "my-model" for the
    NVIDIA adapter; the empty string as model for the Gemini adapter. *)
Lemma option_defaults_witness :
  (exists args,
      sent (trace (HuggingFaceProvider.generate
                     (HuggingFaceProvider.new sdk_hello env_keys None) x None))
      = [HfTextGeneration args]
      /\ tg_temperature args = 0.7%float
      /\ tg_max_new_tokens args = 100%float
      /\ tg_model args = js "mistralai/Mistral-Nemo-Instruct-2407")
  /\ (exists params,
         sent (trace (NvidiaProvider.generate
                        (NvidiaProvider.new sdk_hello env_keys None) x
                        (Some (options_model "my-model"))))
         = [OpenAIChatCompletion (js "https://integrate.api.nvidia.com/v1") params None]
         /\ cc_temperature params = 0.7%float
         /\ cc_max_tokens params = 1000%float
         /\ cc_model params = js "my-model")
  /\ (exists args,
         sent (trace (GeminiProvider.generate
                        (GeminiProvider.new sdk_hello env_keys None) x
                        (Some (options_model ""))))
         = [GeminiGenerateContent args]
         /\ gc_temperature args = 0.7%float
         /\ gc_maxOutputTokens args = 1000%float
         /\ gc_model args = js "gemini-1.5-flash").
Proof.
  destruct option_defaults as (Hhf & _ & Hnv & Hgm).
  split; [|split].
  - destruct (Hhf (HuggingFaceProvider.new sdk_hello env_keys None) x None eq_refl)
      as (args & Hsent & Ht & Hk & _ & Hm & _).
    exists args. split; [exact Hsent|].
    split; [exact (Ht eq_refl)|]. split; [exact (Hk eq_refl)|]. exact (Hm eq_refl).
  - destruct (Hnv (NvidiaProvider.new sdk_hello env_keys None) x
                (Some (options_model "my-model")) eq_refl)
      as (params & Hsent & Ht & Hk & Hm & _).
    exists params. split; [exact Hsent|].
    split; [exact (Ht eq_refl)|]. split; [exact (Hk eq_refl)|].
    apply (Hm (js "my-model") eq_refl). discriminate.
  - destruct (Hgm (GeminiProvider.new sdk_hello env_keys None) x
                (Some (options_model "")) eq_refl)
      as (args & Hsent & Ht & Hk & _ & _ & He).
    exists args. split; [exact Hsent|].
    split; [exact (Ht eq_refl)|]. split; [exact (Hk eq_refl)|]. exact (He eq_refl).
Defined.

(** The status branch of the OpenRouter [catch] clause: when the SDK call
    throws an error whose [response.status] is 401, [generate] throws
    "OpenRouter authentication failed: Invalid API key"; when it is 429,
    [generate] throws "OpenRouter rate limit exceeded"; with any other
    [response.status], or none, it throws the generic
    "OpenRouter error: ..." message.  The two special messages differ from
    each other and from every generic message. *)
Theorem OpenRouter_status_messages
  (self : OpenRouterProvider.t) (prompt : jsstring) (options : option Options)
  (error : thrown) :
  result (OpenRouterProvider.isAvailable self) = Returned true ->
  chat_completions_create (OpenRouterProvider.client self)
    (OpenRouterProvider.request self prompt options)
    (Some (OpenRouterProvider.site_headers (OpenRouterProvider.siteInfo self)))
  = Thrown error ->
  (response_status error = Some 401%Z ->
   result (OpenRouterProvider.generate self prompt options)
   = Thrown (new_Error (js "OpenRouter authentication failed: Invalid API key")))
  /\ (response_status error = Some 429%Z ->
      result (OpenRouterProvider.generate self prompt options)
      = Thrown (new_Error (js "OpenRouter rate limit exceeded")))
  /\ (response_status error <> Some 401%Z ->
      response_status error <> Some 429%Z ->
      result (OpenRouterProvider.generate self prompt options)
      = Thrown (new_Error (js "OpenRouter error: "
                           ++ string_or (message error) (js "Unknown error"))))
  /\ js "OpenRouter authentication failed: Invalid API key"
     <> js "OpenRouter rate limit exceeded"
  /\ (forall detail : jsstring,
         js "OpenRouter authentication failed: Invalid API key"
         <> js "OpenRouter error: " ++ detail
         /\ js "OpenRouter rate limit exceeded" <> js "OpenRouter error: " ++ detail).
Proof.
  intros Hav Hsdk.
  by_key (nonempty (client_apiKey (OpenRouterProvider.client self))
          && negb (string_eqb (client_apiKey (OpenRouterProvider.client self))
                     OpenRouterProvider.invalid_key))%bool; [|discriminate].
  rewrite Hsdk. simpl. clear Hsdk.
  split; [|split; [|split; [|split]]].
  - now intros ->.
  - now intros ->.
  - intros H401 H429.
    destruct (response_status error) as [s|]; simpl; [|reflexivity].
    destruct (Z.eqb_spec s 401) as [->|_]; [now destruct H401|].
    destruct (Z.eqb_spec s 429) as [->|_]; [now destruct H429|].
    reflexivity.
  - discriminate.
  - intros detail. split; discriminate.
Qed.

(** An SDK whose errors have a [response] with status 401 or 429. *)
Lemma OpenRouter_status_messages_witness :
  result (OpenRouterProvider.generate
            (OpenRouterProvider.new (sdk_status 401) env_keys None None) x None)
  = Thrown (new_Error (js "OpenRouter authentication failed: Invalid API key"))
  /\ result (OpenRouterProvider.generate
               (OpenRouterProvider.new (sdk_status 429) env_keys None None) x None)
     = Thrown (new_Error (js "OpenRouter rate limit exceeded")).
Proof.
  split.
  - apply (OpenRouter_status_messages
             (OpenRouterProvider.new (sdk_status 401) env_keys None None) x None
             (ErrorObject (js "Error") (js "Request failed") (Some 401%Z)));
      reflexivity.
  - apply (OpenRouter_status_messages
             (OpenRouterProvider.new (sdk_status 429) env_keys None None) x None
             (ErrorObject (js "Error") (js "Request failed") (Some 429%Z)));
      reflexivity.
Defined.

(** C10: the HuggingFace, NVIDIA and Gemini adapters apply their defaults
    with [||], so a temperature of 0 or a [max_tokens] of 0 given by the
    caller is replaced by the default (0.7; 100 for HuggingFace, 1000 for
    NVIDIA and Gemini) and the request is the one built with the option
    absent; the OpenRouter adapter applies them with [??] and sends the
    0 it was given. *)
Theorem zero_options :
  (forall (self : HuggingFaceProvider.t) prompt options,
      result (HuggingFaceProvider.isAvailable self) = Returned true ->
      exists args,
        sent (trace (HuggingFaceProvider.generate self prompt options))
        = [HfTextGeneration args]
        /\ (opt_temperature options = Some 0%float -> tg_temperature args = 0.7%float)
        /\ (opt_max_tokens options = Some 0%float ->
            tg_max_new_tokens args = 100%float))
  /\ (forall (self : NvidiaProvider.t) prompt options,
         result (NvidiaProvider.isAvailable self) = Returned true ->
         exists params,
           sent (trace (NvidiaProvider.generate self prompt options))
           = [OpenAIChatCompletion (baseURL (NvidiaProvider.client self)) params None]
           /\ (opt_temperature options = Some 0%float ->
               cc_temperature params = 0.7%float)
           /\ (opt_max_tokens options = Some 0%float ->
               cc_max_tokens params = 1000%float))
  /\ (forall (self : GeminiProvider.t) prompt options,
         result (GeminiProvider.isAvailable self) = Returned true ->
         exists args,
           sent (trace (GeminiProvider.generate self prompt options))
           = [GeminiGenerateContent args]
           /\ (opt_temperature options = Some 0%float ->
               gc_temperature args = 0.7%float)
           /\ (opt_max_tokens options = Some 0%float ->
               gc_maxOutputTokens args = 1000%float))
  /\ (forall (self : OpenRouterProvider.t) prompt options,
         result (OpenRouterProvider.isAvailable self) = Returned true ->
         exists params,
           sent (trace (OpenRouterProvider.generate self prompt options))
           = [OpenAIChatCompletion (baseURL (OpenRouterProvider.client self)) params
                (Some (OpenRouterProvider.site_headers
                         (OpenRouterProvider.siteInfo self)))]
           /\ (opt_temperature options = Some 0%float ->
               cc_temperature params = 0%float)
           /\ (opt_max_tokens options = Some 0%float ->
               cc_max_tokens params = 0%float))
  /\ (forall (hf : HuggingFaceProvider.t) (nv : NvidiaProvider.t)
        (gm : GeminiProvider.t) prompt m,
         HuggingFaceProvider.request hf prompt
           (Some {| model := m; temperature := Some 0%float;
                    max_tokens := Some 0%float |})
         = HuggingFaceProvider.request hf prompt
             (Some {| model := m; temperature := None; max_tokens := None |})
         /\ NvidiaProvider.request nv prompt
              (Some {| model := m; temperature := Some 0%float;
                       max_tokens := Some 0%float |})
            = NvidiaProvider.request nv prompt
                (Some {| model := m; temperature := None; max_tokens := None |})
         /\ GeminiProvider.request gm prompt
              (Some {| model := m; temperature := Some 0%float;
                       max_tokens := Some 0%float |})
            = GeminiProvider.request gm prompt
                (Some {| model := m; temperature := None; max_tokens := None |})).
Proof.
  split; [|split; [|split; [|split]]].
  - intros self prompt options Hav.
    exists (HuggingFaceProvider.request self prompt options).
    split; [now apply HuggingFace_sends|]. simpl. split; now intros ->.
  - intros self prompt options Hav.
    exists (NvidiaProvider.request self prompt options).
    split; [now apply Nvidia_sends|]. simpl. split; now intros ->.
  - intros self prompt options Hav.
    exists (GeminiProvider.request self prompt options).
    split; [now apply Gemini_sends|]. simpl. split; now intros ->.
  - intros self prompt options Hav.
    exists (OpenRouterProvider.request self prompt options).
    split; [now apply OpenRouter_sends|]. simpl. split; now intros ->.
  - intros hf nv gm prompt m. repeat split.
Qed.

(** The four adapters, each given temperature 0 and [max_tokens] 0. *)
Lemma zero_options_witness :
  (exists args,
      sent (trace (HuggingFaceProvider.generate
                     (HuggingFaceProvider.new sdk_hello env_keys None) x
                     (Some options_zero)))
      = [HfTextGeneration args]
      /\ tg_temperature args = 0.7%float /\ tg_max_new_tokens args = 100%float)
  /\ (exists params,
         sent (trace (NvidiaProvider.generate
                        (NvidiaProvider.new sdk_hello env_keys None) x
                        (Some options_zero)))
         = [OpenAIChatCompletion (js "https://integrate.api.nvidia.com/v1") params None]
         /\ cc_temperature params = 0.7%float /\ cc_max_tokens params = 1000%float)
  /\ (exists args,
         sent (trace (GeminiProvider.generate
                        (GeminiProvider.new sdk_hello env_keys None) x
                        (Some options_zero)))
         = [GeminiGenerateContent args]
         /\ gc_temperature args = 0.7%float /\ gc_maxOutputTokens args = 1000%float)
  /\ (exists params,
         sent (trace (OpenRouterProvider.generate
                        (OpenRouterProvider.new sdk_hello env_keys None None) x
                        (Some options_zero)))
         = [OpenAIChatCompletion (js "https://openrouter.ai/api/v1") params
              (Some [(js "HTTP-Referer", js "http://localhost:3000");
                     (js "X-Title", js "LLM Fallback Test")])]
         /\ cc_temperature params = 0%float /\ cc_max_tokens params = 0%float).
Proof.
  destruct zero_options as (Hhf & Hnv & Hgm & Hor & _).
  split; [|split; [|split]].
  - destruct (Hhf (HuggingFaceProvider.new sdk_hello env_keys None) x
                (Some options_zero) eq_refl) as (args & Hsent & Ht & Hk).
    exists args. split; [exact Hsent|]. split; [exact (Ht eq_refl) | exact (Hk eq_refl)].
  - destruct (Hnv (NvidiaProvider.new sdk_hello env_keys None) x
                (Some options_zero) eq_refl) as (params & Hsent & Ht & Hk).
    exists params. split; [exact Hsent|].
    split; [exact (Ht eq_refl) | exact (Hk eq_refl)].
  - destruct (Hgm (GeminiProvider.new sdk_hello env_keys None) x
                (Some options_zero) eq_refl) as (args & Hsent & Ht & Hk).
    exists args. split; [exact Hsent|]. split; [exact (Ht eq_refl) | exact (Hk eq_refl)].
  - destruct (Hor (OpenRouterProvider.new sdk_hello env_keys None None) x
                (Some options_zero) eq_refl) as (params & Hsent & Ht & Hk).
    exists params. split; [exact Hsent|].
    split; [exact (Ht eq_refl) | exact (Hk eq_refl)].
Defined.

(* ================================================================= *)
(** ** The client: what every run does *)

Lemma forwarded_app (a b : list ClientEvent) :
  forwarded (a ++ b) = forwarded a ++ forwarded b.
Proof.
  induction a as [|ev a IH]; simpl; [reflexivity|].
  destruct ev; simpl; now rewrite IH.
Qed.

Lemma failure_lines_app (a b : list ClientEvent) :
  failure_lines (a ++ b) = failure_lines a ++ failure_lines b.
Proof.
  induction a as [|ev a IH]; simpl; [reflexivity|].
  destruct ev as [ | | |[ | | | ]]; simpl; now rewrite IH.
Qed.

Lemma requests_app (a b : list ClientEvent) :
  requests (a ++ b) = requests a ++ requests b.
Proof.
  induction a as [|ev a IH]; simpl; [reflexivity|].
  destruct ev as [ | |i [ | | | ]| ]; simpl; now rewrite IH.
Qed.

Lemma forwarded_Inside i (tr : list Effect) : forwarded (map (Inside i) tr) = [].
Proof. induction tr; simpl; auto. Qed.

Lemma failure_lines_Inside i (tr : list Effect) :
  failure_lines (map (Inside i) tr) = [].
Proof. induction tr; simpl; auto. Qed.

Lemma requests_Inside i (tr : list Effect) :
  requests (map (Inside i) tr) = map (pair i) (sent tr).
Proof.
  induction tr as [|[ | | | ] tr IH]; simpl; auto. now rewrite IH.
Qed.

#[export] Hint Rewrite forwarded_app failure_lines_app requests_app
  forwarded_Inside failure_lines_Inside requests_Inside : observers.

Section EveryRun.
Variables (prompt : jsstring) (options : option Options).

(** The three ways a turn of the loop can end. *)
Lemma attempt_cases (i : nat) (p : provider) :
  (unavailable_or_fails p prompt options = true
   /\ result (attempt i p prompt options) = Returned None)
  \/ (exists r, succeeds p prompt options = Some r
                /\ result (attempt i p prompt options) = Returned (Some r))
  \/ (exists e, result (provider_isAvailable p) = Thrown e
                /\ result (attempt i p prompt options) = Thrown e).
Proof.
  unfold unavailable_or_fails, succeeds, attempt, call_isAvailable, call_generate.
  destruct (provider_isAvailable p) as [[[|]|e] tr1];
    destruct (provider_generate p prompt options) as [[r|e'] tr2];
    run_eff; eauto.
Qed.

Lemma attempt_calls (i : nat) (p : provider) :
  considered (trace (attempt i p prompt options)) = [i]
  /\ invoked (trace (attempt i p prompt options)) = (if available p then [i] else [])
  /\ forwarded (trace (attempt i p prompt options))
     = (if available p then [(prompt, options)] else []).
Proof.
  unfold available, attempt, call_isAvailable, call_generate.
  destruct (provider_isAvailable p) as [[[|]|e] tr1];
    destruct (provider_generate p prompt options) as [[r|e'] tr2];
    run_eff; repeat (autorewrite with observers; simpl); auto.
Qed.

Lemma attempt_lines (i : nat) (p : provider) :
  List.length (invoked (trace (attempt i p prompt options)))
  = List.length (success_lines (trace (attempt i p prompt options)))
    + List.length (failure_lines (trace (attempt i p prompt options)))
  /\ List.length (success_lines (trace (attempt i p prompt options)))
     = match result (attempt i p prompt options) with
       | Returned (Some _) => 1
       | _ => 0
       end.
Proof.
  unfold attempt, call_isAvailable, call_generate.
  destruct (provider_isAvailable p) as [[[|]|e] tr1];
    destruct (provider_generate p prompt options) as [[r|e'] tr2];
    run_eff; repeat (autorewrite with observers; simpl); auto.
Qed.

(** The equations of the loop, by the way its first turn ends. *)
Lemma for_of_cons_next (i : nat) (p : provider) (rest : list provider) :
  result (attempt i p prompt options) = Returned None ->
  result (for_of i (p :: rest) prompt options)
  = result (for_of (S i) rest prompt options)
  /\ trace (for_of i (p :: rest) prompt options)
     = trace (attempt i p prompt options) ++ trace (for_of (S i) rest prompt options).
Proof. simpl. unfold bind. now intros ->. Qed.

Lemma for_of_cons_return (i : nat) (p : provider) (rest : list provider) (r : jsstring) :
  result (attempt i p prompt options) = Returned (Some r) ->
  result (for_of i (p :: rest) prompt options) = Returned (Some r)
  /\ trace (for_of i (p :: rest) prompt options) = trace (attempt i p prompt options).
Proof. simpl. unfold bind. intros ->. simpl. now rewrite app_nil_r. Qed.

Lemma for_of_cons_throw (i : nat) (p : provider) (rest : list provider) (e : thrown) :
  result (attempt i p prompt options) = Thrown e ->
  result (for_of i (p :: rest) prompt options) = Thrown e
  /\ trace (for_of i (p :: rest) prompt options) = trace (attempt i p prompt options).
Proof. simpl. unfold bind. now intros ->. Qed.

Lemma for_of_never_throws (ps : list provider) (i : nat) :
  forallb availability_known ps = true ->
  exists o, result (for_of i ps prompt options) = Returned o.
Proof.
  revert i. induction ps as [|p ps IH]; intros i H; simpl in H.
  - now exists None.
  - apply andb_true_iff in H. destruct H as [Hp Hps].
    destruct (attempt_cases i p) as [[_ Hr]|[(r & _ & Hr)|(e & He & _)]].
    + rewrite (proj1 (for_of_cons_next _ _ ps Hr)). apply IH, Hps.
    + rewrite (proj1 (for_of_cons_return _ _ ps _ Hr)). now exists (Some r).
    + unfold availability_known in Hp. now rewrite He in Hp.
Qed.

Lemma for_of_returned (ps : list provider) (i : nat) (r : jsstring) :
  result (for_of i ps prompt options) = Returned (Some r) ->
  exists k winner,
    nth_error ps k = Some winner
    /\ succeeds winner prompt options = Some r
    /\ forallb (fun q => unavailable_or_fails q prompt options) (firstn k ps) = true.
Proof.
  revert i. induction ps as [|p ps IH]; intros i H; [discriminate|].
  destruct (attempt_cases i p) as [[Hu Hr]|[(r' & Hs & Hr)|(e & _ & Hr)]].
  - rewrite (proj1 (for_of_cons_next _ _ ps Hr)) in H.
    destruct (IH (S i) H) as (k & winner & Hnth & Hwin & Hpre).
    exists (S k), winner. simpl. now rewrite Hu, Hpre.
  - rewrite (proj1 (for_of_cons_return _ _ ps _ Hr)) in H. injection H as ->.
    now exists 0, p.
  - now rewrite (proj1 (for_of_cons_throw _ _ ps _ Hr)) in H.
Qed.

Lemma for_of_calls (ps pre : list provider) (i : nat) :
  List.length pre = i ->
  exists m,
    m <= List.length ps
    /\ considered (trace (for_of i ps prompt options)) = seq i m
    /\ invoked (trace (for_of i ps prompt options))
       = filter (available_at (pre ++ ps)) (seq i m)
    /\ forwarded (trace (for_of i ps prompt options))
       = map (fun _ => (prompt, options))
           (invoked (trace (for_of i ps prompt options))).
Proof.
  revert pre i. induction ps as [|p ps IH]; intros pre i Hlen.
  - exists 0. simpl. auto.
  - destruct (attempt_calls i p) as (Hc & Hi & Hf).
    assert (Hat : available_at (pre ++ p :: ps) i = available p).
    { unfold available_at. rewrite nth_error_app2 by lia.
      now replace (i - List.length pre) with 0 by lia. }
    assert (Hone : invoked (trace (attempt i p prompt options))
                   = filter (available_at (pre ++ p :: ps)) [i]).
    { simpl. now rewrite Hat, Hi. }
    assert (Hfw : forwarded (trace (attempt i p prompt options))
                  = map (fun _ => (prompt, options))
                      (invoked (trace (attempt i p prompt options)))).
    { rewrite Hf, Hi. now destruct (available p). }
    destruct (attempt_cases i p) as [[_ Hr]|[(r & _ & Hr)|(e & _ & Hr)]].
    + rewrite (proj2 (for_of_cons_next _ _ ps Hr)).
      destruct (IH (pre ++ [p]) (S i)) as (m & Hm & Hc' & Hi' & Hf').
      { rewrite length_app. simpl. lia. }
      rewrite <- app_assoc in Hi'. simpl in Hi'.
      exists (S m). autorewrite with observers.
      rewrite Hc, Hc', Hfw, Hf', Hi', Hone, map_app.
      change (seq i (S m)) with ([i] ++ seq (S i) m). rewrite filter_app.
      repeat split; auto. simpl. lia.
    + rewrite (proj2 (for_of_cons_return _ _ ps _ Hr)). exists 1.
      rewrite Hc, Hfw, Hone. repeat split; auto. simpl. lia.
    + rewrite (proj2 (for_of_cons_throw _ _ ps _ Hr)). exists 1.
      rewrite Hc, Hfw, Hone. repeat split; auto. simpl. lia.
Qed.

Lemma for_of_lines (ps : list provider) (i : nat) :
  List.length (invoked (trace (for_of i ps prompt options)))
  = List.length (success_lines (trace (for_of i ps prompt options)))
    + List.length (failure_lines (trace (for_of i ps prompt options)))
  /\ List.length (success_lines (trace (for_of i ps prompt options)))
     = match result (for_of i ps prompt options) with
       | Returned (Some _) => 1
       | _ => 0
       end.
Proof.
  revert i. induction ps as [|p ps IH]; intros i; [now simpl|].
  destruct (attempt_lines i p) as [Hl Hs].
  destruct (attempt_cases i p) as [[_ Hr]|[(r & _ & Hr)|(e & _ & Hr)]];
    rewrite Hr in Hs.
  - destruct (for_of_cons_next _ _ ps Hr) as [-> ->].
    destruct (IH (S i)) as [Hl' Hs'].
    autorewrite with observers. rewrite !length_app. split; lia.
  - destruct (for_of_cons_return _ _ ps _ Hr) as [-> ->]. split; lia.
  - destruct (for_of_cons_throw _ _ ps _ Hr) as [-> ->]. split; lia.
Qed.

End EveryRun.

(** X1: when no provider's [isAvailable] throws, the only error [generate]
    can throw is the [AllProvidersFailedError]: whatever a provider's
    [generate] throws is caught and never reaches the caller. *)
Theorem generate_throws_only_the_aggregate_error
  (self : LLMClient.t) (prompt : jsstring) (options : option Options) (e : thrown) :
  forallb availability_known (providers self) = true ->
  result (LLMClient.generate self prompt options) = Thrown e ->
  e = new_AllProvidersFailedError (js "All LLM providers failed").
Proof.
  intros Hknown. rewrite result_generate.
  destruct (for_of_never_throws prompt options (providers self) 0 Hknown) as [o ->].
  destruct o as [r|]; [discriminate|]. now intros [= <-].
Qed.

Lemma generate_throws_only_the_aggregate_error_witness :
  ErrorObject (js "AllProvidersFailedError") (js "All LLM providers failed") None
  = new_AllProvidersFailedError (js "All LLM providers failed").
Proof.
  apply (generate_throws_only_the_aggregate_error
           {| providers := [stub_failing "quota"; stub_unavailable] |} x None);
    reflexivity.
Defined.

(** X2: a text returned by [generate] is the answer of a provider of the
    list that is available and whose [generate] returned it, and every
    provider before that one was unavailable or failed. *)
Theorem generate_result_comes_from_first_success
  (self : LLMClient.t) (prompt : jsstring) (options : option Options) (r : jsstring) :
  result (LLMClient.generate self prompt options) = Returned r ->
  exists k winner,
    nth_error (providers self) k = Some winner
    /\ succeeds winner prompt options = Some r
    /\ forallb (fun q => unavailable_or_fails q prompt options)
         (firstn k (providers self)) = true.
Proof.
  rewrite result_generate. intros H.
  apply (for_of_returned prompt options (providers self) 0).
  destruct (result (for_of 0 (providers self) prompt options)) as [[r'|]|e];
    try discriminate.
  now injection H as ->.
Qed.

Lemma generate_result_comes_from_first_success_witness :
  exists k winner,
    nth_error [stub_failing "quota"; stub_ok "7"; stub_ok "8"] k = Some winner
    /\ succeeds winner x None = Some (js "7")
    /\ forallb (fun q => unavailable_or_fails q x None)
         (firstn k [stub_failing "quota"; stub_ok "7"; stub_ok "8"]) = true.
Proof.
  apply (generate_result_comes_from_first_success
           {| providers := [stub_failing "quota"; stub_ok "7"; stub_ok "8"] |}
           x None (js "7")).
  reflexivity.
Defined.

(** X3: in every run of [generate], the entries whose [isAvailable] is
    called are an initial segment [0, 1, ..., m-1] of the list, each once
    and in order, and [generate] is called on exactly those of them that
    answered true, once each and in the same order: never on a provider
    that said it was unavailable, and never twice on one entry. *)
Theorem generate_calls_in_order
  (self : LLMClient.t) (prompt : jsstring) (options : option Options) :
  exists m,
    m <= List.length (providers self)
    /\ considered (trace (LLMClient.generate self prompt options)) = seq 0 m
    /\ invoked (trace (LLMClient.generate self prompt options))
       = filter (available_at (providers self)) (seq 0 m).
Proof.
  rewrite trace_generate.
  destruct (for_of_calls prompt options (providers self) [] 0 eq_refl)
    as (m & Hm & Hc & Hi & _).
  exists m. auto.
Qed.

(** X4: every call of a provider's [generate] made by the client receives
    the caller's prompt and options unchanged. *)
Theorem generate_forwards_arguments
  (self : LLMClient.t) (prompt : jsstring) (options : option Options) :
  forwarded (trace (LLMClient.generate self prompt options))
  = map (fun _ => (prompt, options))
      (invoked (trace (LLMClient.generate self prompt options))).
Proof.
  rewrite trace_generate.
  now destruct (for_of_calls prompt options (providers self) [] 0 eq_refl)
    as (m & _ & _ & _ & Hf).
Qed.

(** X5: the call of [isAvailable] is outside the [try]: when the providers
    before index [k] are unavailable or fail and [isAvailable] of the
    provider at index [k] throws, [generate] throws that same error, after
    considering the entries [0 .. k] and none after. *)
Theorem isAvailable_error_is_not_caught
  (self : LLMClient.t) (k : nat) (p : provider) (e : thrown)
  (prompt : jsstring) (options : option Options) :
  forallb (fun q => unavailable_or_fails q prompt options)
    (firstn k (providers self)) = true ->
  nth_error (providers self) k = Some p ->
  result (provider_isAvailable p) = Thrown e ->
  result (LLMClient.generate self prompt options) = Thrown e
  /\ considered (trace (LLMClient.generate self prompt options)) = seq 0 (S k).
Proof.
  intros Hpre Hnth He.
  destruct (split_at_index _ _ _ Hnth) as [Hsplit Hlen].
  set (pre := firstn k (providers self)) in *.
  destruct (for_of_exhausted prompt options pre 0 Hpre) as (Hr & Hc & _).
  rewrite Hlen in Hc.
  assert (Hat : result (attempt k p prompt options) = Thrown e).
  { destruct (attempt_cases prompt options k p) as [[Hu _]|[(r & Hs & _)|(e' & He' & Ha)]].
    - unfold unavailable_or_fails in Hu. now rewrite He in Hu.
    - unfold succeeds in Hs. now rewrite He in Hs.
    - rewrite He in He'. now injection He' as <-. }
  destruct (for_of_cons_throw prompt options k p (skipn (S k) (providers self)) e Hat)
    as [Hres Htr].
  destruct (attempt_calls prompt options k p) as (Hck & _).
  rewrite result_generate, trace_generate, Hsplit, for_of_app.
  change (0 + List.length pre) with (List.length pre). rewrite Hlen.
  rewrite result_bind, Hr, Hres, (trace_bind_returned _ _ _ Hr), Htr.
  autorewrite with observers. rewrite Hc, Hck.
  split; [reflexivity|].
  change [k] with (seq (0 + k) 1). rewrite <- seq_app. f_equal. lia.
Qed.

Lemma isAvailable_error_is_not_caught_witness :
  result (LLMClient.generate
            {| providers := [stub_unavailable; stub_broken "no config"; stub_ok "9"] |}
            x None)
  = Thrown (new_Error (js "no config"))
  /\ considered (trace (LLMClient.generate
            {| providers := [stub_unavailable; stub_broken "no config"; stub_ok "9"] |}
            x None))
     = [0; 1].
Proof.
  apply (isAvailable_error_is_not_caught
           {| providers := [stub_unavailable; stub_broken "no config"; stub_ok "9"] |}
           1 (stub_broken "no config") (new_Error (js "no config")) x None);
    reflexivity.
Defined.

(** X6: the client prints exactly one line of its own for each call of a
    provider's [generate]: a success line when the call returned, a
    failure line when it threw.  A run that returns printed one success
    line, a run that throws printed none. *)
Theorem every_call_is_logged_once
  (self : LLMClient.t) (prompt : jsstring) (options : option Options) :
  List.length (invoked (trace (LLMClient.generate self prompt options)))
  = List.length (success_lines (trace (LLMClient.generate self prompt options)))
    + List.length (failure_lines (trace (LLMClient.generate self prompt options)))
  /\ List.length (success_lines (trace (LLMClient.generate self prompt options)))
     = match result (LLMClient.generate self prompt options) with
       | Returned _ => 1
       | Thrown _ => 0
       end.
Proof.
  rewrite result_generate, trace_generate.
  destruct (for_of_lines prompt options (providers self) 0) as [Hl Hs].
  split; [exact Hl|]. rewrite Hs.
  now destruct (result (for_of 0 (providers self) prompt options)) as [[r|]|e].
Qed.

(** X7: calling [addProvider] for each provider of [qs] in turn appends
    [qs], in that order, to the list; starting from a list emptied by
    [setProviders([])], [generate] then runs exactly as on a client
    constructed with [qs]. *)
Theorem addProviders_appends_in_order
  (self : LLMClient.t) (qs : list provider) (sdk : SDK) (env : ProcessEnv)
  (prompt : jsstring) (options : option Options) :
  providers (addProviders self qs) = providers self ++ qs
  /\ LLMClient.generate (addProviders (setProviders self []) qs) prompt options
     = LLMClient.generate (LLMClient.new sdk env (Some qs)) prompt options.
Proof.
  assert (H : forall c, providers (addProviders c qs) = providers c ++ qs).
  { unfold addProviders. induction qs as [|q qs IH]; intros c; simpl.
    - now rewrite app_nil_r.
    - rewrite IH. simpl. now rewrite <- app_assoc. }
  split; [apply H|].
  unfold LLMClient.generate. now rewrite H.
Qed.

(* ================================================================= *)
(** ** Text: trimming, tags, white space *)


Lemma whitespace_is_no_bracket (c : N) :
  is_whitespace c = true -> (c =? LT)%N = false /\ (c =? GT)%N = false.
Proof.
  intros H. split.
  - destruct (N.eqb_spec c LT) as [->|]; [discriminate | reflexivity].
  - destruct (N.eqb_spec c GT) as [->|]; [discriminate | reflexivity].
Qed.

(** [trimStart] removes a run of white space from the front and stops at
    the first other code unit. *)
Lemma trimStart_split (s : jsstring) :
  exists front,
    s = front ++ trimStart s
    /\ forallb is_whitespace front = true
    /\ starts_clean (trimStart s) = true.
Proof.
  induction s as [|c s (front & Hs & Hw & Hc)]; simpl.
  - now exists [].
  - destruct (is_whitespace c) eqn:Hcw.
    + exists (c :: front). simpl. rewrite Hcw, Hw. now rewrite <- Hs.
    + exists []. simpl. now rewrite Hcw.
Qed.

Lemma trimStart_fixed (s : jsstring) : starts_clean s = true -> trimStart s = s.
Proof. destruct s as [|c s]; simpl; [reflexivity|]. now destruct (is_whitespace c). Qed.

(** [trim] keeps a middle part of the string. *)
Lemma trim_split (s : jsstring) :
  exists front back, s = front ++ trim s ++ back.
Proof.
  unfold trim, trimEnd.
  destruct (trimStart_split s) as (front & Hs & _ & _).
  destruct (trimStart_split (rev (trimStart s))) as (back & Hr & _ & _).
  exists front, (rev back).
  rewrite <- rev_app_distr, <- Hr, rev_involutive. exact Hs.
Qed.

Lemma starts_clean_prefix (a b : jsstring) :
  a <> [] -> starts_clean (a ++ b) = starts_clean a.
Proof. destruct a; [congruence | reflexivity]. Qed.

Lemma trim_trimmed (s : jsstring) : trimmed (trim s) = true.
Proof.
  unfold trimmed, trim, trimEnd. rewrite rev_involutive.
  destruct (trimStart_split s) as (_ & _ & _ & Hhead).
  destruct (trimStart_split (rev (trimStart s))) as (back & Hr & _ & Htail).
  rewrite Htail, andb_true_r.
  set (t := trimStart s) in *. set (u := trimStart (rev t)) in *.
  destruct u as [|c u'] eqn:Hu; [reflexivity|].
  assert (Ht : t = rev (c :: u') ++ rev back).
  { rewrite <- rev_app_distr, <- Hr. now rewrite rev_involutive. }
  rewrite Ht in Hhead. rewrite starts_clean_prefix in Hhead; [exact Hhead|].
  simpl. now destruct (rev u').
Qed.

Lemma trim_fixed (s : jsstring) : trimmed s = true -> trim s = s.
Proof.
  unfold trimmed, trim, trimEnd. intros H. apply andb_true_iff in H.
  destruct H as [Hh Ht].
  now rewrite (trimStart_fixed _ Hh), (trimStart_fixed _ Ht), rev_involutive.
Qed.

(** Removing tags leaves no ['>'] that was not there. *)
Lemma remove_tags_from_GT (b : bool) (s : jsstring) :
  existsb (N.eqb GT) (remove_tags_from b s) = true -> existsb (N.eqb GT) s = true.
Proof.
  revert b. induction s as [|c s IH]; intros b; simpl; [now destruct b|].
  destruct b.
  - destruct (c =? GT)%N eqn:Hc; intros H; apply IH in H; rewrite H;
      now rewrite orb_true_r.
  - destruct ((c =? LT)%N && existsb (N.eqb GT) s)%bool eqn:Hc.
    + intros H. apply IH in H. rewrite H. now rewrite orb_true_r.
    + simpl. intros H. apply orb_true_iff in H. destruct H as [H|H].
      * now rewrite H.
      * apply IH in H. rewrite H. now rewrite orb_true_r.
Qed.

Lemma remove_tags_from_no_tag (b : bool) (s : jsstring) :
  has_tag (remove_tags_from b s) = false.
Proof.
  revert b. induction s as [|c s IH]; intros b; simpl; [now destruct b|].
  destruct b.
  - destruct (c =? GT)%N; apply IH.
  - destruct ((c =? LT)%N && existsb (N.eqb GT) s)%bool eqn:Hc; [apply IH|].
    simpl. rewrite IH, orb_false_r.
    destruct (c =? LT)%N; [|reflexivity]. simpl in *.
    destruct (existsb (N.eqb GT) (remove_tags_from false s)) eqn:Hg; [|reflexivity].
    apply remove_tags_from_GT in Hg. congruence.
Qed.

Lemma remove_tags_fixed (s : jsstring) : has_tag s = false -> remove_tags s = s.
Proof.
  unfold remove_tags. induction s as [|c s IH]; simpl; [reflexivity|].
  intros H. apply orb_false_iff in H. destruct H as [Hc Hs].
  rewrite Hc. now rewrite IH.
Qed.

Lemma has_tag_app (a b : jsstring) :
  has_tag (a ++ b) = false -> has_tag a = false /\ has_tag b = false.
Proof.
  induction a as [|c a IH]; simpl; [auto|].
  intros H. apply orb_false_iff in H. destruct H as [Hc Hab].
  destruct (IH Hab) as [Ha Hb]. split; [|exact Hb].
  rewrite Ha, orb_false_r.
  destruct (c =? LT)%N; [|reflexivity]. simpl in *.
  rewrite existsb_app in Hc. now apply orb_false_iff in Hc.
Qed.

(** Normalizing white space changes no bracket. *)
Lemma normalize_whitespace_from_GT (b : bool) (s : jsstring) :
  existsb (N.eqb GT) (normalize_whitespace_from b s) = existsb (N.eqb GT) s.
Proof.
  revert b. induction s as [|c s IH]; intros b; [reflexivity|].
  cbn [normalize_whitespace_from existsb].
  destruct (is_whitespace c) eqn:Hc.
  - destruct (whitespace_is_no_bracket c Hc) as [_ Hgt].
    rewrite N.eqb_sym in Hgt. rewrite Hgt.
    destruct b; cbn [existsb]; rewrite IH; reflexivity.
  - cbn [existsb]. now rewrite IH.
Qed.

Lemma normalize_whitespace_from_tag (b : bool) (s : jsstring) :
  has_tag (normalize_whitespace_from b s) = has_tag s.
Proof.
  revert b. induction s as [|c s IH]; intros b; simpl; [reflexivity|].
  destruct (is_whitespace c) eqn:Hc.
  - destruct (whitespace_is_no_bracket c Hc) as [Hlt _]. rewrite Hlt. simpl.
    destruct b; simpl; apply IH.
  - simpl. now rewrite IH, normalize_whitespace_from_GT.
Qed.

Lemma normalize_whitespace_from_spaced (b : bool) (s : jsstring) :
  single_spaced (normalize_whitespace_from b s) = true
  /\ (b = true -> starts_clean (normalize_whitespace_from b s) = true).
Proof.
  revert b. induction s as [|c s IH]; intros b; simpl; [auto|].
  destruct (is_whitespace c) eqn:Hc.
  - destruct (IH true) as [Hs Hh]. destruct b; [auto|].
    simpl. rewrite Hs, (Hh eq_refl). split; [reflexivity | discriminate].
  - destruct (IH false) as [Hs _]. simpl. rewrite Hc, Hs. auto.
Qed.

Lemma normalize_whitespace_from_fixed (b : bool) (s : jsstring) :
  single_spaced s = true -> (b = true -> starts_clean s = true) ->
  normalize_whitespace_from b s = s.
Proof.
  revert b. induction s as [|c s IH]; intros b; simpl; [reflexivity|].
  intros H Hb. apply andb_true_iff in H. destruct H as [Hc Hs].
  destruct (is_whitespace c) eqn:Hw.
  - apply andb_true_iff in Hc. destruct Hc as [Hsp Hnext].
    apply N.eqb_eq in Hsp. subst c.
    destruct b; [specialize (Hb eq_refl); discriminate|].
    now rewrite (IH true Hs (fun _ => Hnext)).
  - rewrite (IH false Hs); [reflexivity | discriminate].
Qed.

Lemma single_spaced_app (a b : jsstring) :
  single_spaced (a ++ b) = true -> single_spaced a = true /\ single_spaced b = true.
Proof.
  induction a as [|c a IH]; simpl; [auto|].
  intros H. apply andb_true_iff in H. destruct H as [Hc Hab].
  destruct (IH Hab) as [Ha Hb]. split; [|exact Hb].
  rewrite Ha, andb_true_r.
  destruct (is_whitespace c); [|reflexivity].
  apply andb_true_iff in Hc. destruct Hc as [-> Hnext]. simpl.
  destruct a; [reflexivity | exact Hnext].
Qed.

(** The cleaned text has no tag left, no white space but single spaces
    between other code units, and no white space at either end. *)
Lemma clean_shape (s : jsstring) :
  has_tag (clean s) = false /\ single_spaced (clean s) = true /\ trimmed (clean s) = true.
Proof.
  unfold clean.
  destruct (trim_split (normalize_whitespace (remove_tags s))) as (front & back & Hsplit).
  assert (Htag : has_tag (normalize_whitespace (remove_tags s)) = false).
  { unfold normalize_whitespace, remove_tags.
    now rewrite normalize_whitespace_from_tag, remove_tags_from_no_tag. }
  assert (Hsp : single_spaced (normalize_whitespace (remove_tags s)) = true).
  { apply normalize_whitespace_from_spaced. }
  rewrite Hsplit in Htag, Hsp.
  apply has_tag_app in Htag. destruct Htag as [_ Htag].
  apply has_tag_app in Htag. destruct Htag as [Htag _].
  apply single_spaced_app in Hsp. destruct Hsp as [_ Hsp].
  apply single_spaced_app in Hsp. destruct Hsp as [Hsp _].
  auto using trim_trimmed.
Qed.

(* ================================================================= *)
(** ** The adapters: availability and construction *)


(** The shape shared by the four [isAvailable] methods. *)
Lemma key_check (valid : bool) (msg : jsstring) :
  (if negb valid then console_warn msg else ret tt) ;; ret valid
  = (Returned valid, if valid then [] else [ConsoleWarn [LogText msg]]).
Proof. now destruct valid. Qed.



(** X9: an adapter constructed without a key reads it from the
    environment and is available exactly when its variable is set to a
    non-empty string (for OpenRouter, one that is not ['invalid-key']); a
    key given to the constructor is used instead of the environment, even
    when it is the empty string. *)
Theorem constructor_key
  (sdk : SDK) (env : ProcessEnv) (k : jsstring) :
  (available (Provider (HuggingFaceProvider.new sdk env None))
   = is_set (HUGGINGFACE_API_KEY env)
   /\ available (Provider (NvidiaProvider.new sdk env None))
      = is_set (NVIDIA_API_KEY env)
   /\ available (Provider (GeminiProvider.new sdk env None))
      = is_set (GEMINI_API_KEY env)
   /\ available (Provider (OpenRouterProvider.new sdk env None None))
      = (is_set (OPENROUTER_API_KEY env)
         && negb (string_eqb (string_or (OPENROUTER_API_KEY env) (js ""))
                    (js "invalid-key")))%bool)
  /\ (available (Provider (HuggingFaceProvider.new sdk env (Some k))) = nonempty k
      /\ available (Provider (NvidiaProvider.new sdk env (Some k))) = nonempty k
      /\ available (Provider (GeminiProvider.new sdk env (Some k))) = nonempty k
      /\ available (Provider (OpenRouterProvider.new sdk env (Some k) None))
         = OpenRouter_key_ok k).
Proof.
  unfold available, provider_isAvailable.
  cbn [provider_self provider_methods isAvailable
    HuggingFace_LLMProvider OpenRouter_LLMProvider Nvidia_LLMProvider Gemini_LLMProvider].
  unfold HuggingFaceProvider.isAvailable, OpenRouterProvider.isAvailable,
    NvidiaProvider.isAvailable, GeminiProvider.isAvailable.
  rewrite !key_check. unfold result, is_set, OpenRouter_key_ok. cbn.
  split.
  - destruct env as [[[|c1 k1]|] [[|c2 k2]|] [[|c3 k3]|] [[|c4 k4]|]]; cbn;
      repeat split; try reflexivity;
      match goal with |- (if ?b then _ else _) = _ => now destruct b end.
  - repeat split;
      match goal with |- (if ?b then _ else _) = _ => now destruct b end.
Qed.

(* ================================================================= *)
(** ** The adapters: what [generate] returns and throws *)

Ltac OpenRouter_by_key self :=
  by_key (nonempty (client_apiKey (OpenRouterProvider.client self))
          && negb (string_eqb (client_apiKey (OpenRouterProvider.client self))
                     OpenRouterProvider.invalid_key))%bool.

(** X10: whatever goes wrong, [generate] of an adapter throws a plain
    [Error] (never the raw value thrown by the SDK) whose message begins
    with the name of the adapter. *)
Theorem adapters_throw_named_errors :
  (forall (self : HuggingFaceProvider.t) prompt options e,
      result (HuggingFaceProvider.generate self prompt options) = Thrown e ->
      exists msg, e = new_Error msg /\ starts_with (js "HuggingFace API ") msg = true)
  /\ (forall (self : OpenRouterProvider.t) prompt options e,
         result (OpenRouterProvider.generate self prompt options) = Thrown e ->
         exists msg, e = new_Error msg /\ starts_with (js "OpenRouter ") msg = true)
  /\ (forall (self : NvidiaProvider.t) prompt options e,
         result (NvidiaProvider.generate self prompt options) = Thrown e ->
         exists msg, e = new_Error msg /\ starts_with (js "NVIDIA API ") msg = true)
  /\ (forall (self : GeminiProvider.t) prompt options e,
         result (GeminiProvider.generate self prompt options) = Thrown e ->
         exists msg, e = new_Error msg /\ starts_with (js "Gemini API ") msg = true).
Proof.
  split; [|split; [|split]]; intros self prompt options e.
  - by_key (nonempty (HuggingFaceProvider.apiKey self)).
    + destruct (HuggingFaceProvider.client self _) as [out|err]; simpl;
        [discriminate|].
      intros [= <-]. eexists. split; reflexivity.
    + intros [= <-]. eexists. split; reflexivity.
  - OpenRouter_by_key self.
    + destruct (chat_completions_create _ _ _) as [completion|err]; simpl.
      * destruct (OpenRouterProvider.completion_content completion) as [[|c s]|];
          simpl; try discriminate; intros [= <-]; eexists; split; reflexivity.
      * destruct (status_is (response_status err) 401); simpl;
          [intros [= <-]; eexists; split; reflexivity|].
        destruct (status_is (response_status err) 429); simpl;
          intros [= <-]; eexists; split; reflexivity.
    + intros [= <-]. eexists. split; reflexivity.
  - by_key (nonempty (client_apiKey (NvidiaProvider.client self))).
    + destruct (chat_completions_create _ _ _) as [completion|err]; simpl.
      * unfold NvidiaProvider.completion_text.
        destruct (choices completion) as [cs|]; simpl; [discriminate|].
        intros [= <-]. eexists. split; reflexivity.
      * intros [= <-]. eexists. split; reflexivity.
    + intros [= <-]. eexists. split; reflexivity.
  - by_key (nonempty (gemini_apiKey (GeminiProvider.client self))).
    + destruct (generateContent _ _) as [res|err]; simpl.
      * unfold GeminiProvider.result_text.
        destruct (response res) as [r|]; run_eff; [|discriminate].
        destruct (text r) as [c|err]; simpl; [discriminate|].
        intros [= <-]. eexists. split; reflexivity.
      * intros [= <-]. eexists. split; reflexivity.
    + intros [= <-]. eexists. split; reflexivity.
Qed.

Lemma adapters_throw_named_errors_witness :
  exists msg,
    new_Error (js "NVIDIA API error: Request failed") = new_Error msg
    /\ starts_with (js "NVIDIA API ") msg = true.
Proof.
  apply (proj1 (proj2 (proj2 adapters_throw_named_errors))
           (NvidiaProvider.new (sdk_status 500) env_keys None) x None).
  reflexivity.
Defined.

(** X11: when the SDK call of the HuggingFace, NVIDIA or Gemini adapter
    throws, [generate] throws an [Error] whose message is the adapter's
    "... API error: " prefix followed by the message of the error caught,
    or by "Unknown error" when the value caught is not an [Error]. *)
Theorem sdk_errors_are_wrapped :
  (forall (self : HuggingFaceProvider.t) prompt options err,
      result (HuggingFaceProvider.isAvailable self) = Returned true ->
      HuggingFaceProvider.client self (HuggingFaceProvider.request self prompt options)
      = Thrown err ->
      result (HuggingFaceProvider.generate self prompt options)
      = Thrown (new_Error (js "HuggingFace API error: "
                           ++ message_of_Error_or err (js "Unknown error"))))
  /\ (forall (self : NvidiaProvider.t) prompt options err,
         result (NvidiaProvider.isAvailable self) = Returned true ->
         chat_completions_create (NvidiaProvider.client self)
           (NvidiaProvider.request self prompt options) None
         = Thrown err ->
         result (NvidiaProvider.generate self prompt options)
         = Thrown (new_Error (js "NVIDIA API error: "
                              ++ message_of_Error_or err (js "Unknown error"))))
  /\ (forall (self : GeminiProvider.t) prompt options err,
         result (GeminiProvider.isAvailable self) = Returned true ->
         generateContent (GeminiProvider.client self)
           (GeminiProvider.request self prompt options)
         = Thrown err ->
         result (GeminiProvider.generate self prompt options)
         = Thrown (new_Error (js "Gemini API error: "
                              ++ message_of_Error_or err (js "Unknown error")))).
Proof.
  split; [|split]; intros self prompt options err Hav Hsdk.
  - by_key (nonempty (HuggingFaceProvider.apiKey self)); [|discriminate].
    now rewrite Hsdk.
  - by_key (nonempty (client_apiKey (NvidiaProvider.client self))); [|discriminate].
    now rewrite Hsdk.
  - by_key (nonempty (gemini_apiKey (GeminiProvider.client self))); [|discriminate].
    now rewrite Hsdk.
Qed.

Lemma sdk_errors_are_wrapped_witness :
  result (HuggingFaceProvider.generate
            (HuggingFaceProvider.new
               (sdk_answering (Thrown (OtherValue None None))
                  (Thrown (OtherValue None None)) (Thrown (OtherValue None None)))
               env_keys None) x None)
  = Thrown (new_Error (js "HuggingFace API error: Unknown error"))
  /\ result (GeminiProvider.generate
               (GeminiProvider.new (sdk_status 503) env_keys None) x None)
     = Thrown (new_Error (js "Gemini API error: Request failed")).
Proof.
  destruct sdk_errors_are_wrapped as (Hhf & _ & Hgm).
  split.
  - apply (Hhf (HuggingFaceProvider.new
                  (sdk_answering (Thrown (OtherValue None None))
                     (Thrown (OtherValue None None)) (Thrown (OtherValue None None)))
                  env_keys None) x None (OtherValue None None)); reflexivity.
  - apply (Hgm (GeminiProvider.new (sdk_status 503) env_keys None) x None
             (ErrorObject (js "Error") (js "Request failed") (Some 503%Z)));
      reflexivity.
Defined.

Lemma trimmed_answer (v : option jsstring) :
  trimmed (string_or (opt_trim v) No_response_generated) = true.
Proof.
  destruct v as [v|]; simpl; [|reflexivity].
  pose proof (trim_trimmed v) as H.
  now destruct (trim v).
Qed.

(** X12: the text returned by [generate] of any of the four adapters has
    no white space at its beginning or at its end. *)
Theorem adapters_return_trimmed_text :
  (forall (self : HuggingFaceProvider.t) prompt options s,
      result (HuggingFaceProvider.generate self prompt options) = Returned s ->
      trimmed s = true)
  /\ (forall (self : OpenRouterProvider.t) prompt options s,
         result (OpenRouterProvider.generate self prompt options) = Returned s ->
         trimmed s = true)
  /\ (forall (self : NvidiaProvider.t) prompt options s,
         result (NvidiaProvider.generate self prompt options) = Returned s ->
         trimmed s = true)
  /\ (forall (self : GeminiProvider.t) prompt options s,
         result (GeminiProvider.generate self prompt options) = Returned s ->
         trimmed s = true).
Proof.
  split; [|split; [|split]]; intros self prompt options s.
  - by_key (nonempty (HuggingFaceProvider.apiKey self)); [|discriminate].
    destruct (HuggingFaceProvider.client self _) as [out|err]; simpl; [|discriminate].
    intros [= <-].
    pose proof (trim_trimmed
                  (normalize_whitespace
                     (remove_tags (string_or (generated_text out) (js ""))))) as H.
    now destruct (trim _).
  - OpenRouter_by_key self; [|discriminate].
    destruct (chat_completions_create _ _ _) as [completion|err]; simpl.
    + destruct (OpenRouterProvider.completion_content completion) as [[|c t]|];
        simpl; try discriminate.
      intros [= <-]. apply trim_trimmed.
    + destruct (status_is (response_status err) 401); simpl; [discriminate|].
      destruct (status_is (response_status err) 429); discriminate.
  - by_key (nonempty (client_apiKey (NvidiaProvider.client self))); [|discriminate].
    destruct (chat_completions_create _ _ _) as [completion|err]; simpl; [|discriminate].
    unfold NvidiaProvider.completion_text.
    destruct (choices completion) as [cs|]; simpl; [|discriminate].
    intros [= <-]. apply trimmed_answer.
  - by_key (nonempty (gemini_apiKey (GeminiProvider.client self))); [|discriminate].
    destruct (generateContent _ _) as [res|err]; simpl; [|discriminate].
    unfold GeminiProvider.result_text.
    destruct (response res) as [r|]; run_eff.
    + destruct (text r) as [c|err]; simpl; [|discriminate].
      intros [= <-]. apply trimmed_answer.
    + now intros [= <-].
Qed.

Lemma adapters_return_trimmed_text_witness : trimmed (js "Hello") = true.
Proof.
  apply (proj1 (proj2 adapters_return_trimmed_text)
           (OpenRouterProvider.new sdk_hello env_keys None None) x None).
  reflexivity.
Defined.

(** X13: the text returned by [generate] of the HuggingFace adapter has
    no tag left in it (no ['<'] with a ['>'] anywhere after it) and its
    only white space is single spaces between other code units. *)
Theorem HuggingFace_returns_clean_text
  (self : HuggingFaceProvider.t) (prompt : jsstring) (options : option Options)
  (s : jsstring) :
  result (HuggingFaceProvider.generate self prompt options) = Returned s ->
  has_tag s = false /\ single_spaced s = true.
Proof.
  by_key (nonempty (HuggingFaceProvider.apiKey self)); [|discriminate].
  destruct (HuggingFaceProvider.client self _) as [out|err]; simpl; [|discriminate].
  intros [= <-].
  destruct (clean_shape (string_or (generated_text out) (js ""))) as (Ht & Hs & _).
  unfold clean in *.
  now destruct (trim _).
Qed.

Lemma HuggingFace_returns_clean_text_witness :
  has_tag (js "Hi there") = false /\ single_spaced (js "Hi there") = true.
Proof.
  apply (HuggingFace_returns_clean_text
           (HuggingFaceProvider.new
              (sdk_answering
                 (Returned {| generated_text := Some (js " <s>Hi</s>   there ") |})
                 (Returned (completion_of None)) (Returned (gemini_result_of None)))
              env_keys None) x None).
  reflexivity.
Defined.

(** X14: the cleaning of the HuggingFace adapter is idempotent: cleaning
    a cleaned text changes nothing. *)
Theorem clean_idempotent (s : jsstring) : clean (clean s) = clean s.
Proof.
  destruct (clean_shape s) as (Ht & Hs & Htrim).
  unfold clean at 1.
  rewrite (remove_tags_fixed _ Ht).
  unfold normalize_whitespace.
  rewrite (normalize_whitespace_from_fixed false _ Hs) by discriminate.
  now apply trim_fixed.
Qed.

Lemma OpenRouter_returns (self : OpenRouterProvider.t) prompt options completion c :
  result (OpenRouterProvider.isAvailable self) = Returned true ->
  chat_completions_create (OpenRouterProvider.client self)
    (OpenRouterProvider.request self prompt options)
    (Some (OpenRouterProvider.site_headers (OpenRouterProvider.siteInfo self)))
  = Returned completion ->
  OpenRouterProvider.completion_content completion = Some c ->
  c <> [] ->
  result (OpenRouterProvider.generate self prompt options) = Returned (trim c).
Proof.
  intros Hav Hsdk Hc Hne.
  OpenRouter_by_key self; [|discriminate].
  rewrite Hsdk. simpl. rewrite Hc.
  now destruct c.
Qed.

(** X15: with a valid key and an answer of the SDK that is not empty once
    trimmed (cleaned, for HuggingFace), [generate] returns that answer
    trimmed (cleaned): the content of the first choice for OpenRouter and
    NVIDIA, the text of the response for Gemini. *)
Theorem adapters_return_the_answer :
  (forall (self : HuggingFaceProvider.t) prompt options out,
      result (HuggingFaceProvider.isAvailable self) = Returned true ->
      HuggingFaceProvider.client self (HuggingFaceProvider.request self prompt options)
      = Returned out ->
      clean (string_or (generated_text out) (js "")) <> [] ->
      result (HuggingFaceProvider.generate self prompt options)
      = Returned (clean (string_or (generated_text out) (js ""))))
  /\ (forall (self : OpenRouterProvider.t) prompt options completion c,
         result (OpenRouterProvider.isAvailable self) = Returned true ->
         chat_completions_create (OpenRouterProvider.client self)
           (OpenRouterProvider.request self prompt options)
           (Some (OpenRouterProvider.site_headers (OpenRouterProvider.siteInfo self)))
         = Returned completion ->
         OpenRouterProvider.completion_content completion = Some c ->
         c <> [] ->
         result (OpenRouterProvider.generate self prompt options) = Returned (trim c))
  /\ (forall (self : NvidiaProvider.t) prompt options completion cs c,
         result (NvidiaProvider.isAvailable self) = Returned true ->
         chat_completions_create (NvidiaProvider.client self)
           (NvidiaProvider.request self prompt options) None
         = Returned completion ->
         choices completion = Some cs ->
         first_choice_content cs = Some c ->
         trim c <> [] ->
         result (NvidiaProvider.generate self prompt options) = Returned (trim c))
  /\ (forall (self : GeminiProvider.t) prompt options res r c,
         result (GeminiProvider.isAvailable self) = Returned true ->
         generateContent (GeminiProvider.client self)
           (GeminiProvider.request self prompt options)
         = Returned res ->
         response res = Some r ->
         text r = Returned (Some c) ->
         trim c <> [] ->
         result (GeminiProvider.generate self prompt options) = Returned (trim c)).
Proof.
  split; [|split; [|split]].
  - intros self prompt options out Hav Hsdk Hne.
    by_key (nonempty (HuggingFaceProvider.apiKey self)); [|discriminate].
    rewrite Hsdk. unfold clean in *. simpl in *.
    destruct (trim _); [now destruct Hne | reflexivity].
  - intros self prompt options completion c. apply OpenRouter_returns.
  - intros self prompt options completion cs c Hav Hsdk Hcs Hc Hne.
    by_key (nonempty (client_apiKey (NvidiaProvider.client self))); [|discriminate].
    rewrite Hsdk. simpl. unfold NvidiaProvider.completion_text.
    rewrite Hcs. simpl. rewrite Hc. simpl.
    now destruct (trim c).
  - intros self prompt options res r c Hav Hsdk Hr Hc Hne.
    by_key (nonempty (gemini_apiKey (GeminiProvider.client self))); [|discriminate].
    rewrite Hsdk. simpl. unfold GeminiProvider.result_text.
    rewrite Hr. run_eff. rewrite Hc. simpl.
    now destruct (trim c).
Qed.

(** An SDK that answers with padded text. *)
Lemma adapters_return_the_answer_witness :
  result (NvidiaProvider.generate
            (NvidiaProvider.new
               (sdk_answering (Returned {| generated_text := None |})
                  (Returned (completion_of (Some (js "  Hi there "))))
                  (Returned (gemini_result_of None)))
               env_keys None) x None)
  = Returned (trim (js "  Hi there "))
  /\ trim (js "  Hi there ") = js "Hi there".
Proof.
  split; [|reflexivity].
  apply (proj1 (proj2 (proj2 adapters_return_the_answer))
           (NvidiaProvider.new
              (sdk_answering (Returned {| generated_text := None |})
                 (Returned (completion_of (Some (js "  Hi there "))))
                 (Returned (gemini_result_of None)))
              env_keys None) x None
           (completion_of (Some (js "  Hi there ")))
           [ {| choice_message := Some {| content := Some (js "  Hi there ") |} |} ]
           (js "  Hi there "));
    try reflexivity. discriminate.
Defined.

(** X16: a temperature or a [max_tokens] given by the caller that is not
    falsy (not 0 and not NaN) is the one sent by the HuggingFace, NVIDIA
    and Gemini adapters; the OpenRouter adapter sends whatever number it
    is given. *)
Theorem given_options_are_sent :
  (forall (self : HuggingFaceProvider.t) prompt options,
      result (HuggingFaceProvider.isAvailable self) = Returned true ->
      exists args,
        sent (trace (HuggingFaceProvider.generate self prompt options))
        = [HfTextGeneration args]
        /\ (forall t, opt_temperature options = Some t -> falsy_number t = false ->
                      tg_temperature args = t)
        /\ (forall k, opt_max_tokens options = Some k -> falsy_number k = false ->
                      tg_max_new_tokens args = k))
  /\ (forall (self : NvidiaProvider.t) prompt options,
         result (NvidiaProvider.isAvailable self) = Returned true ->
         exists params,
           sent (trace (NvidiaProvider.generate self prompt options))
           = [OpenAIChatCompletion (baseURL (NvidiaProvider.client self)) params None]
           /\ (forall t, opt_temperature options = Some t -> falsy_number t = false ->
                         cc_temperature params = t)
           /\ (forall k, opt_max_tokens options = Some k -> falsy_number k = false ->
                         cc_max_tokens params = k))
  /\ (forall (self : GeminiProvider.t) prompt options,
         result (GeminiProvider.isAvailable self) = Returned true ->
         exists args,
           sent (trace (GeminiProvider.generate self prompt options))
           = [GeminiGenerateContent args]
           /\ (forall t, opt_temperature options = Some t -> falsy_number t = false ->
                         gc_temperature args = t)
           /\ (forall k, opt_max_tokens options = Some k -> falsy_number k = false ->
                         gc_maxOutputTokens args = k))
  /\ (forall (self : OpenRouterProvider.t) prompt options,
         result (OpenRouterProvider.isAvailable self) = Returned true ->
         exists params,
           sent (trace (OpenRouterProvider.generate self prompt options))
           = [OpenAIChatCompletion (baseURL (OpenRouterProvider.client self)) params
                (Some (OpenRouterProvider.site_headers
                         (OpenRouterProvider.siteInfo self)))]
           /\ (forall t, opt_temperature options = Some t -> cc_temperature params = t)
           /\ (forall k, opt_max_tokens options = Some k -> cc_max_tokens params = k)).
Proof.
  split; [|split; [|split]]; intros self prompt options Hav.
  - exists (HuggingFaceProvider.request self prompt options).
    split; [now apply HuggingFace_sends|]. simpl.
    split; intros v -> Hv; simpl; now rewrite Hv.
  - exists (NvidiaProvider.request self prompt options).
    split; [now apply Nvidia_sends|]. simpl.
    split; intros v -> Hv; simpl; now rewrite Hv.
  - exists (GeminiProvider.request self prompt options).
    split; [now apply Gemini_sends|]. simpl.
    split; intros v -> Hv; simpl; now rewrite Hv.
  - exists (OpenRouterProvider.request self prompt options).
    split; [now apply OpenRouter_sends|]. simpl.
    split; now intros v ->.
Qed.

Lemma given_options_are_sent_witness :
  exists args,
    sent (trace (GeminiProvider.generate
                   (GeminiProvider.new sdk_hello env_keys None) x
                   (Some {| model := None; temperature := Some 0.2%float;
                            max_tokens := Some 256%float |})))
    = [GeminiGenerateContent args]
    /\ gc_temperature args = 0.2%float
    /\ gc_maxOutputTokens args = 256%float.
Proof.
  destruct (proj1 (proj2 (proj2 given_options_are_sent))
              (GeminiProvider.new sdk_hello env_keys None) x
              (Some {| model := None; temperature := Some 0.2%float;
                       max_tokens := Some 256%float |}) eq_refl)
    as (args & Hsent & Ht & Hk).
  exists args. split; [exact Hsent|].
  split; [exact (Ht _ eq_refl eq_refl) | exact (Hk _ eq_refl eq_refl)].
Defined.

(** X17: the OpenRouter adapter, given a valid key, prints one debug line
    with [console.error] exactly when its [generate] throws, and that line
    shows the value caught; the other three adapters never print an
    error. *)
Theorem OpenRouter_logs_failures :
  (forall (self : OpenRouterProvider.t) prompt options,
      result (OpenRouterProvider.isAvailable self) = Returned true ->
      List.length (errors (trace (OpenRouterProvider.generate self prompt options)))
      = match result (OpenRouterProvider.generate self prompt options) with
        | Returned _ => 0
        | Thrown _ => 1
        end)
  /\ (forall (self : OpenRouterProvider.t) prompt options err,
         result (OpenRouterProvider.isAvailable self) = Returned true ->
         chat_completions_create (OpenRouterProvider.client self)
           (OpenRouterProvider.request self prompt options)
           (Some (OpenRouterProvider.site_headers (OpenRouterProvider.siteInfo self)))
         = Thrown err ->
         errors (trace (OpenRouterProvider.generate self prompt options))
         = [[LogText (js "OpenRouter Debug:"); LogDebug err]])
  /\ (forall (self : HuggingFaceProvider.t) prompt options,
         errors (trace (HuggingFaceProvider.generate self prompt options)) = [])
  /\ (forall (self : NvidiaProvider.t) prompt options,
         errors (trace (NvidiaProvider.generate self prompt options)) = [])
  /\ (forall (self : GeminiProvider.t) prompt options,
         errors (trace (GeminiProvider.generate self prompt options)) = []).
Proof.
  split; [|split; [|split; [|split]]].
  - intros self prompt options Hav. OpenRouter_by_key self; [|discriminate].
    destruct (chat_completions_create _ _ _) as [completion|err]; simpl.
    + now destruct (OpenRouterProvider.completion_content completion) as [[|c s]|].
    + destruct (status_is (response_status err) 401); [reflexivity|].
      now destruct (status_is (response_status err) 429).
  - intros self prompt options err Hav Hsdk. OpenRouter_by_key self; [|discriminate].
    rewrite Hsdk. simpl.
    destruct (status_is (response_status err) 401); [reflexivity|].
    now destruct (status_is (response_status err) 429).
  - intros self prompt options.
    by_key (nonempty (HuggingFaceProvider.apiKey self)); [|reflexivity].
    now destruct (HuggingFaceProvider.client self _).
  - intros self prompt options.
    by_key (nonempty (client_apiKey (NvidiaProvider.client self))); [|reflexivity].
    destruct (chat_completions_create _ _ _) as [completion|err]; simpl; [|reflexivity].
    unfold NvidiaProvider.completion_text. now destruct (choices completion).
  - intros self prompt options.
    by_key (nonempty (gemini_apiKey (GeminiProvider.client self))); [|reflexivity].
    destruct (generateContent _ _) as [res|err]; simpl; [|reflexivity].
    unfold GeminiProvider.result_text.
    destruct (response res) as [r|]; run_eff; [|reflexivity].
    now destruct (text r).
Qed.

Lemma OpenRouter_logs_failures_witness :
  errors (trace (OpenRouterProvider.generate
                   (OpenRouterProvider.new (sdk_status 500) env_keys None None) x None))
  = [[LogText (js "OpenRouter Debug:");
      LogDebug (ErrorObject (js "Error") (js "Request failed") (Some 500%Z))]].
Proof.
  apply (proj1 (proj2 OpenRouter_logs_failures)
           (OpenRouterProvider.new (sdk_status 500) env_keys None None) x None
           (ErrorObject (js "Error") (js "Request failed") (Some 500%Z)));
    reflexivity.
Defined.

(* ================================================================= *)
(** ** The client over the built-in adapters *)

Lemma default_availability_known (sdk : SDK) (env : ProcessEnv) :
  forallb availability_known (LLMClient.default_providers sdk env) = true.
Proof.
  unfold LLMClient.default_providers, availability_known, provider_isAvailable.
  cbn [forallb provider_self provider_methods isAvailable
    HuggingFace_LLMProvider OpenRouter_LLMProvider Nvidia_LLMProvider Gemini_LLMProvider].
  unfold HuggingFaceProvider.isAvailable, OpenRouterProvider.isAvailable,
    NvidiaProvider.isAvailable, GeminiProvider.isAvailable.
  now rewrite !key_check.
Qed.

(** X18: a client constructed with the default providers throws nothing
    but the [AllProvidersFailedError], whatever the environment holds and
    whatever the SDKs answer or throw. *)
Theorem default_client_throws_only_the_aggregate_error
  (sdk : SDK) (env : ProcessEnv) (prompt : jsstring) (options : option Options)
  (e : thrown) :
  result (LLMClient.generate (LLMClient.new sdk env None) prompt options) = Thrown e ->
  e = new_AllProvidersFailedError (js "All LLM providers failed").
Proof.
  rewrite result_generate. cbn [LLMClient.new LLMClient.providers].
  destruct (for_of_never_throws prompt options (LLMClient.default_providers sdk env) 0
              (default_availability_known sdk env)) as [o ->].
  destruct o as [r|]; [discriminate|]. now intros [= <-].
Qed.

Lemma default_client_throws_only_the_aggregate_error_witness :
  ErrorObject (js "AllProvidersFailedError") (js "All LLM providers failed") None
  = new_AllProvidersFailedError (js "All LLM providers failed").
Proof.
  apply (default_client_throws_only_the_aggregate_error
           (sdk_status 500) env_keys x None).
  reflexivity.
Defined.

(** X19: with none of the four keys set in the environment (missing or
    empty), [generate] of the default client throws the
    [AllProvidersFailedError] after asking each of the four adapters, in
    order, whether it is available; no adapter's [generate] is called and
    nothing is sent to any SDK. *)
Theorem default_client_without_keys
  (sdk : SDK) (env : ProcessEnv) (prompt : jsstring) (options : option Options) :
  is_set (OPENROUTER_API_KEY env) = false ->
  is_set (HUGGINGFACE_API_KEY env) = false ->
  is_set (NVIDIA_API_KEY env) = false ->
  is_set (GEMINI_API_KEY env) = false ->
  result (LLMClient.generate (LLMClient.new sdk env None) prompt options)
  = Thrown (new_AllProvidersFailedError (js "All LLM providers failed"))
  /\ considered (trace (LLMClient.generate (LLMClient.new sdk env None) prompt options))
     = [0; 1; 2; 3]
  /\ invoked (trace (LLMClient.generate (LLMClient.new sdk env None) prompt options))
     = []
  /\ requests (trace (LLMClient.generate (LLMClient.new sdk env None) prompt options))
     = [].
Proof.
  destruct env as [[[|c1 k1]|] [[|c2 k2]|] [[|c3 k3]|] [[|c4 k4]|]]; cbn;
    intros H1 H2 H3 H4; try discriminate; repeat split; reflexivity.
Qed.

Lemma default_client_without_keys_witness :
  result (LLMClient.generate (LLMClient.new sdk_hello env_empty None) x None)
  = Thrown (new_AllProvidersFailedError (js "All LLM providers failed"))
  /\ considered (trace (LLMClient.generate (LLMClient.new sdk_hello env_empty None) x None))
     = [0; 1; 2; 3]
  /\ invoked (trace (LLMClient.generate (LLMClient.new sdk_hello env_empty None) x None))
     = []
  /\ requests (trace (LLMClient.generate (LLMClient.new sdk_hello env_empty None) x None))
     = [].
Proof.
  apply (default_client_without_keys sdk_hello env_empty x None); reflexivity.
Defined.

Lemma attempt_requests (i : nat) (p : provider) (prompt : jsstring)
  (options : option Options) (r : jsstring) :
  succeeds p prompt options = Some r ->
  requests (trace (LLMClient.attempt i p prompt options))
  = map (pair i) (sent (trace (provider_isAvailable p))
                  ++ sent (trace (provider_generate p prompt options))).
Proof.
  unfold succeeds, LLMClient.attempt, LLMClient.call_isAvailable, LLMClient.call_generate.
  destruct (provider_isAvailable p) as [[[|]|e] tr1];
    destruct (provider_generate p prompt options) as [[r'|e'] tr2];
    run_eff; intros H; try discriminate.
  repeat (autorewrite with observers; simpl). now rewrite map_app, app_nil_r.
Qed.

(** X20: OpenRouter is the first of the default providers: when its key
    is valid and its SDK call answers with non-empty content, [generate]
    of the default client returns that content trimmed, after one request
    to OpenRouter; the other three adapters are not even asked whether
    they are available. *)
Theorem default_client_prefers_OpenRouter
  (sdk : SDK) (env : ProcessEnv) (prompt : jsstring) (options : option Options)
  (completion : ChatCompletion) (c : jsstring) :
  result (OpenRouterProvider.isAvailable (OpenRouterProvider.new sdk env None None))
  = Returned true ->
  chat_completions_create
    (OpenRouterProvider.client (OpenRouterProvider.new sdk env None None))
    (OpenRouterProvider.request (OpenRouterProvider.new sdk env None None) prompt options)
    (Some (OpenRouterProvider.site_headers
             (OpenRouterProvider.siteInfo (OpenRouterProvider.new sdk env None None))))
  = Returned completion ->
  OpenRouterProvider.completion_content completion = Some c ->
  c <> [] ->
  result (LLMClient.generate (LLMClient.new sdk env None) prompt options)
  = Returned (trim c)
  /\ considered (trace (LLMClient.generate (LLMClient.new sdk env None) prompt options))
     = [0]
  /\ requests (trace (LLMClient.generate (LLMClient.new sdk env None) prompt options))
     = [(0, OpenAIChatCompletion (js "https://openrouter.ai/api/v1")
              (OpenRouterProvider.request (OpenRouterProvider.new sdk env None None)
                 prompt options)
              (Some [(js "HTTP-Referer", js "http://localhost:3000");
                     (js "X-Title", js "LLM Fallback Test")]))].
Proof.
  intros Hav Hsdk Hc Hne.
  set (first := OpenRouterProvider.new sdk env None None) in *.
  assert (Hwin : succeeds (Provider first) prompt options = Some (trim c)).
  { unfold succeeds.
    change (provider_isAvailable (Provider first))
      with (OpenRouterProvider.isAvailable first).
    change (provider_generate (Provider first) prompt options)
      with (OpenRouterProvider.generate first prompt options).
    now rewrite Hav, (OpenRouter_returns first prompt options completion c Hav Hsdk Hc Hne). }
  pose proof (for_of_first_success prompt options []
                [ Provider (HuggingFaceProvider.new sdk env None);
                  Provider (NvidiaProvider.new sdk env None);
                  Provider (GeminiProvider.new sdk env None) ]
                (Provider first) (trim c) 0 eq_refl Hwin) as Hrun.
  cbn [app List.length Nat.add] in Hrun.
  assert (Hres : result (LLMClient.for_of 0 (LLMClient.default_providers sdk env)
                           prompt options) = Returned (Some (trim c)))
    by (unfold LLMClient.default_providers; fold first; now rewrite Hrun).
  assert (Htr : trace (LLMClient.for_of 0 (LLMClient.default_providers sdk env)
                         prompt options)
                = trace (LLMClient.attempt 0 (Provider first) prompt options))
    by (unfold LLMClient.default_providers; fold first; now rewrite Hrun).
  rewrite result_generate, trace_generate.
  cbn [LLMClient.new LLMClient.providers]. rewrite Hres, Htr.
  destruct (attempt_succeeds 0 (Provider first) prompt options (trim c) Hwin)
    as (_ & Hcons & _).
  rewrite Hcons, (attempt_requests 0 _ _ _ _ Hwin).
  change (provider_isAvailable (Provider first))
    with (OpenRouterProvider.isAvailable first).
  change (provider_generate (Provider first) prompt options)
    with (OpenRouterProvider.generate first prompt options).
  rewrite (OpenRouter_sends first prompt options Hav).
  unfold OpenRouterProvider.isAvailable. rewrite key_check.
  repeat split. cbn [trace snd]. now destruct (_ && _)%bool.
Qed.

Lemma default_client_prefers_OpenRouter_witness :
  result (LLMClient.generate (LLMClient.new sdk_hello env_keys None) x None)
  = Returned (trim (js "Hello"))
  /\ considered (trace (LLMClient.generate (LLMClient.new sdk_hello env_keys None) x None))
     = [0]
  /\ requests (trace (LLMClient.generate (LLMClient.new sdk_hello env_keys None) x None))
     = [(0, OpenAIChatCompletion (js "https://openrouter.ai/api/v1")
              (OpenRouterProvider.request
                 (OpenRouterProvider.new sdk_hello env_keys None None) x None)
              (Some [(js "HTTP-Referer", js "http://localhost:3000");
                     (js "X-Title", js "LLM Fallback Test")]))].
Proof.
  apply (default_client_prefers_OpenRouter sdk_hello env_keys x None
           (completion_of (Some (js "Hello"))) (js "Hello"));
    try reflexivity. discriminate.
Defined.

Lemma attempt_failure_line (i : nat) (p : provider) (prompt : jsstring)
  (options : option Options) :
  unavailable_or_fails p prompt options = true ->
  failure_lines (trace (LLMClient.attempt i p prompt options))
  = failure_line_of p prompt options.
Proof.
  unfold unavailable_or_fails, failure_line_of, available, LLMClient.attempt,
    LLMClient.call_isAvailable, LLMClient.call_generate.
  destruct (provider_isAvailable p) as [[[|]|e] tr1];
    destruct (provider_generate p prompt options) as [[r|e'] tr2];
    run_eff; intros H; try discriminate;
    repeat (autorewrite with observers; simpl); auto.
Qed.

(** X21: when every provider is unavailable or fails, the client has
    printed, in list order, one failure line for each provider whose
    [generate] it called, made of the provider's class name, " failed: "
    and the message of the error thrown ("Unknown error occurred" when the
    value thrown is not an [Error]); skipped providers get no line. *)
Theorem failures_are_reported_in_order
  (self : LLMClient.t) (prompt : jsstring) (options : option Options) :
  forallb (fun p => unavailable_or_fails p prompt options) (LLMClient.providers self)
  = true ->
  failure_lines (trace (LLMClient.generate self prompt options))
  = flat_map (fun p => failure_line_of p prompt options) (LLMClient.providers self).
Proof.
  rewrite trace_generate. generalize 0 as i.
  induction (LLMClient.providers self) as [|p ps IH]; intros i H; [reflexivity|].
  simpl in H. apply andb_true_iff in H. destruct H as [Hp Hps].
  destruct (attempt_skips i p prompt options Hp) as (Hr & _).
  rewrite (proj2 (for_of_cons_next prompt options i p ps Hr)).
  autorewrite with observers.
  rewrite (attempt_failure_line i p prompt options Hp), (IH (S i) Hps).
  reflexivity.
Qed.

Lemma failures_are_reported_in_order_witness :
  failure_lines
    (trace (LLMClient.generate
              {| LLMClient.providers :=
                   [stub_failing "quota"; stub_unavailable; stub_throwing_value] |}
              x None))
  = [[LogText (js "StubProvider failed: quota")];
     [LogText (js "StubProvider failed: Unknown error occurred")]].
Proof.
  rewrite (failures_are_reported_in_order
             {| LLMClient.providers :=
                  [stub_failing "quota"; stub_unavailable; stub_throwing_value] |}
             x None);
    reflexivity.
Defined.

(** X22: when the first provider of the list is available and its
    [generate] returns, the client returns that text at once: the first
    entry is the only one whose [isAvailable] or [generate] is called, and
    no event of the run belongs to another entry. *)
Theorem first_provider_success_short_circuits
  (self : LLMClient.t) (p : provider) (rest : list provider) (r : jsstring)
  (prompt : jsstring) (options : option Options) :
  providers self = p :: rest ->
  succeeds p prompt options = Some r ->
  result (LLMClient.generate self prompt options) = Returned r
  /\ considered (trace (LLMClient.generate self prompt options)) = [0]
  /\ invoked (trace (LLMClient.generate self prompt options)) = [0]
  /\ indices_all (Nat.eqb 0) (trace (LLMClient.generate self prompt options)) = true.
Proof.
  intros Hps Hwin.
  destruct (attempt_succeeds 0 p prompt options r Hwin) as (Hr & Hc & Hi & _).
  destruct (for_of_cons_return prompt options 0 p rest r Hr) as [Hres Htr].
  rewrite result_generate, trace_generate, Hps, Hres, Htr, Hc, Hi.
  repeat split. apply attempt_indices.
Qed.

Lemma first_provider_success_short_circuits_witness :
  result (LLMClient.generate {| providers := [stub_ok "1"; stub_ok "2"] |} x None)
  = Returned (js "1")
  /\ considered (trace (LLMClient.generate
                          {| providers := [stub_ok "1"; stub_ok "2"] |} x None)) = [0]
  /\ invoked (trace (LLMClient.generate
                       {| providers := [stub_ok "1"; stub_ok "2"] |} x None)) = [0]
  /\ indices_all (Nat.eqb 0)
       (trace (LLMClient.generate
                 {| providers := [stub_ok "1"; stub_ok "2"] |} x None)) = true.
Proof.
  apply (first_provider_success_short_circuits
           {| providers := [stub_ok "1"; stub_ok "2"] |}
           (stub_ok "1") [stub_ok "2"] (js "1") x None);
    reflexivity.
Defined.

(* ================================================================= *)
(** ** The client: exhaustion, and a provider added at the end *)

Lemma for_of_single (i : nat) (p : provider) (prompt : jsstring)
  (options : option Options) :
  for_of i [p] prompt options = attempt i p prompt options.
Proof.
  simpl. destruct (attempt i p prompt options) as [[[r|]|e] tr];
    unfold bind; simpl; now rewrite ?app_nil_r.
Qed.

(** C2: if every provider of the list is unavailable or fails its
    [generate] call, the client's [generate] throws the
    [AllProvidersFailedError], and before the throw every entry was
    considered exactly once, in index order: [isAvailable] was called on
    the entries [0, 1, ..., n-1] in that order, [generate] was called once,
    in the same order, on exactly those entries that answered true, every
    one of these calls ended in the [catch] clause (one failure line each),
    and no success line was printed. *)
Theorem generate_exhausted
  (self : LLMClient.t) (prompt : jsstring) (options : option Options) :
  forallb (fun p => unavailable_or_fails p prompt options) (providers self) = true ->
  result (LLMClient.generate self prompt options)
  = Thrown (new_AllProvidersFailedError (js "All LLM providers failed"))
  /\ considered (trace (LLMClient.generate self prompt options))
     = seq 0 (List.length (providers self))
  /\ invoked (trace (LLMClient.generate self prompt options))
     = filter (available_at (providers self)) (seq 0 (List.length (providers self)))
  /\ List.length (failure_lines (trace (LLMClient.generate self prompt options)))
     = List.length (invoked (trace (LLMClient.generate self prompt options)))
  /\ success_lines (trace (LLMClient.generate self prompt options)) = [].
Proof.
  intros H.
  destruct (for_of_exhausted prompt options (providers self) 0 H) as (Hr & Hc & Hs).
  destruct (for_of_calls prompt options (providers self) [] 0 eq_refl)
    as (m & _ & Hc' & Hi & _).
  destruct (for_of_lines prompt options (providers self) 0) as [Hl _].
  assert (Hm : m = List.length (providers self)).
  { rewrite Hc in Hc'. apply (f_equal (@List.length nat)) in Hc'.
    rewrite !length_seq in Hc'. congruence. }
  subst m. simpl in Hi.
  rewrite result_generate, trace_generate, Hr, Hc, Hi, Hs.
  repeat split. rewrite Hi, Hs in Hl. simpl in Hl. congruence.
Qed.

(** An unavailable provider, an available one that fails, an unavailable
    one: [generate] is called on the second only. *)
Lemma generate_exhausted_witness :
  result (LLMClient.generate
            {| providers := [stub_unavailable; stub_failing "rate limit exceeded";
                             stub_unavailable] |} x None)
  = Thrown (new_AllProvidersFailedError (js "All LLM providers failed"))
  /\ considered (trace (LLMClient.generate
            {| providers := [stub_unavailable; stub_failing "rate limit exceeded";
                             stub_unavailable] |} x None))
     = [0; 1; 2]
  /\ invoked (trace (LLMClient.generate
            {| providers := [stub_unavailable; stub_failing "rate limit exceeded";
                             stub_unavailable] |} x None))
     = [1]
  /\ List.length (failure_lines (trace (LLMClient.generate
            {| providers := [stub_unavailable; stub_failing "rate limit exceeded";
                             stub_unavailable] |} x None)))
     = 1
  /\ success_lines (trace (LLMClient.generate
            {| providers := [stub_unavailable; stub_failing "rate limit exceeded";
                             stub_unavailable] |} x None))
     = [].
Proof.
  apply (generate_exhausted
           {| providers := [stub_unavailable; stub_failing "rate limit exceeded";
                            stub_unavailable] |} x None).
  reflexivity.
Defined.

(** C5: [addProvider] puts the provider at the end of the list, whether or
    not it is already there.  A run of [generate] on the new list begins
    with the whole run on the old list, which touches only the old
    entries; whatever follows touches only the new entry (index [n], the
    old length).  When the old list already produced a result, the new
    entry is not consulted at all.  When every old provider is unavailable
    or fails, the new provider is tried, after all of them and last: its
    [isAvailable] is the last one called, its [generate] is called (after
    every other call) exactly when it is available, and the run returns
    its answer when it succeeds and throws the [AllProvidersFailedError]
    when it is unavailable or fails. *)
Theorem addProvider_appends
  (self : LLMClient.t) (p : provider) (prompt : jsstring) (options : option Options) :
  providers (addProvider self p) = providers self ++ [p]
  /\ List.length (providers (addProvider self p)) = S (List.length (providers self))
  /\ (exists rest : list ClientEvent,
         trace (LLMClient.generate (addProvider self p) prompt options)
         = trace (LLMClient.generate self prompt options) ++ rest
         /\ indices_all (fun k => k <? List.length (providers self))
              (trace (LLMClient.generate self prompt options)) = true
         /\ indices_all (Nat.eqb (List.length (providers self))) rest = true)
  /\ (forall r : jsstring,
         result (LLMClient.generate self prompt options) = Returned r ->
         LLMClient.generate (addProvider self p) prompt options
         = LLMClient.generate self prompt options)
  /\ (forallb (fun q => unavailable_or_fails q prompt options) (providers self) = true ->
      considered (trace (LLMClient.generate (addProvider self p) prompt options))
      = seq 0 (List.length (providers self)) ++ [List.length (providers self)]
      /\ invoked (trace (LLMClient.generate (addProvider self p) prompt options))
         = invoked (trace (LLMClient.generate self prompt options))
           ++ (if available p then [List.length (providers self)] else [])
      /\ (forall r : jsstring,
             succeeds p prompt options = Some r ->
             result (LLMClient.generate (addProvider self p) prompt options)
             = Returned r)
      /\ (unavailable_or_fails p prompt options = true ->
          result (LLMClient.generate (addProvider self p) prompt options)
          = Thrown (new_AllProvidersFailedError (js "All LLM providers failed")))).
Proof.
  split; [reflexivity|]. split; [simpl; rewrite length_app; simpl; lia|].
  set (n := List.length (providers self)).
  pose proof (for_of_indices prompt options (providers self) 0) as Hold.
  pose proof (attempt_indices n p prompt options) as Hnew.
  assert (Hold' : indices_all (fun k => k <? n)
                    (trace (for_of 0 (providers self) prompt options)) = true).
  { revert Hold. apply indices_all_weaken. intros k. unfold in_range.
    now rewrite andb_true_iff. }
  assert (Hloop : for_of 0 (providers self ++ [p]) prompt options
                  = bind (for_of 0 (providers self) prompt options)
                      (fun returned =>
                         match returned with
                         | Some r => ret (Some r)
                         | None => attempt n p prompt options
                         end)).
  { rewrite for_of_app. change (0 + List.length (providers self)) with n.
    now rewrite (for_of_single n p prompt options). }
  rewrite !trace_generate, !result_generate.
  unfold addProvider. cbn [providers].
  split; [|split].
  - rewrite Hloop.
    destruct (for_of 0 (providers self) prompt options) as [[[r|]|e] tr];
      unfold bind; cbn [result trace fst snd] in *.
    + exists []. now rewrite Hold'.
    + exists (trace (attempt n p prompt options)). now rewrite Hold', Hnew.
    + exists []. now rewrite Hold', app_nil_r.
  - intros r Hr. unfold LLMClient.generate. cbn [providers]. rewrite Hloop.
    destruct (for_of 0 (providers self) prompt options) as [[[r'|]|e] tr];
      try discriminate.
    unfold bind, ret. simpl. now rewrite !app_nil_r.
  - intros Hex.
    destruct (for_of_exhausted prompt options (providers self) 0 Hex) as (Hr & Hc & _).
    destruct (attempt_calls prompt options n p) as (Hcn & Hin & _).
    rewrite Hloop, result_bind, Hr, (trace_bind_returned _ _ _ Hr).
    autorewrite with observers. rewrite Hc, Hcn, Hin.
    split; [reflexivity|]. split; [reflexivity|]. split.
    + intros r Hwin.
      destruct (attempt_succeeds n p prompt options r Hwin) as (-> & _). reflexivity.
    + intros Hfail.
      destruct (attempt_skips n p prompt options Hfail) as (-> & _). reflexivity.
Qed.

(** A provider added to a list whose only entry fails is asked after it
    and answers; added to a list whose first entry answers, it is never
    asked. *)
Lemma addProvider_appends_witness :
  (considered (trace (LLMClient.generate
                        (addProvider {| providers := [stub_failing "e"] |} (stub_ok "b"))
                        x None))
   = [0; 1]
   /\ invoked (trace (LLMClient.generate
                        (addProvider {| providers := [stub_failing "e"] |} (stub_ok "b"))
                        x None))
      = [0; 1]
   /\ result (LLMClient.generate
                (addProvider {| providers := [stub_failing "e"] |} (stub_ok "b")) x None)
      = Returned (js "b"))
  /\ LLMClient.generate (addProvider {| providers := [stub_ok "a"] |} (stub_ok "b")) x None
     = LLMClient.generate {| providers := [stub_ok "a"] |} x None.
Proof.
  split.
  - destruct (proj2 (proj2 (proj2 (proj2
                (addProvider_appends {| providers := [stub_failing "e"] |}
                   (stub_ok "b") x None)))) eq_refl)
      as (Hc & Hi & Hwin & _).
    split; [exact Hc|]. split; [exact Hi|]. exact (Hwin (js "b") eq_refl).
  - apply (proj1 (proj2 (proj2 (proj2
             (addProvider_appends {| providers := [stub_ok "a"] |} (stub_ok "b") x None))))
             (js "a")).
    reflexivity.
Defined.

(* ================================================================= *)
(** ** The OpenRouter adapter and the errors of its SDK *)

(** C9: the [catch] clause of the OpenRouter adapter looks for the status
    code in [error.response?.status] only.  For an error that has no
    [response], whatever status code it carries elsewhere, neither the 401
    nor the 429 branch is taken: [generate] throws the generic
    "OpenRouter error: ..." message made from the message of the error,
    which is neither of the two special messages. *)
Theorem OpenRouter_misses_the_status_of_SDK_errors
  (self : OpenRouterProvider.t) (prompt : jsstring) (options : option Options)
  (error : thrown) :
  result (OpenRouterProvider.isAvailable self) = Returned true ->
  chat_completions_create (OpenRouterProvider.client self)
    (OpenRouterProvider.request self prompt options)
    (Some (OpenRouterProvider.site_headers (OpenRouterProvider.siteInfo self)))
  = Thrown error ->
  response_status error = None ->
  result (OpenRouterProvider.generate self prompt options)
  = Thrown (new_Error (js "OpenRouter error: "
                       ++ string_or (message error) (js "Unknown error")))
  /\ result (OpenRouterProvider.generate self prompt options)
     <> Thrown (new_Error (js "OpenRouter authentication failed: Invalid API key"))
  /\ result (OpenRouterProvider.generate self prompt options)
     <> Thrown (new_Error (js "OpenRouter rate limit exceeded")).
Proof.
  intros Hav Hsdk Hstatus.
  OpenRouter_by_key self; [|discriminate].
  rewrite Hsdk. simpl. rewrite Hstatus. simpl.
  repeat split; discriminate.
Qed.

(** The errors of the [openai] client for the statuses 401 and 429. *)
Lemma OpenRouter_misses_the_status_of_SDK_errors_witness :
  (result (OpenRouterProvider.generate
             (OpenRouterProvider.new (sdk_throwing openai_401) env_keys None None) x None)
   = Thrown (new_Error (js "OpenRouter error: 401 No auth credentials found"))
   /\ result (OpenRouterProvider.generate
                (OpenRouterProvider.new (sdk_throwing openai_401) env_keys None None)
                x None)
      <> Thrown (new_Error (js "OpenRouter authentication failed: Invalid API key"))
   /\ result (OpenRouterProvider.generate
                (OpenRouterProvider.new (sdk_throwing openai_401) env_keys None None)
                x None)
      <> Thrown (new_Error (js "OpenRouter rate limit exceeded")))
  /\ (result (OpenRouterProvider.generate
                (OpenRouterProvider.new (sdk_throwing openai_429) env_keys None None)
                x None)
      = Thrown (new_Error (js "OpenRouter error: 429 Rate limit exceeded"))
      /\ result (OpenRouterProvider.generate
                   (OpenRouterProvider.new (sdk_throwing openai_429) env_keys None None)
                   x None)
         <> Thrown (new_Error (js "OpenRouter authentication failed: Invalid API key"))
      /\ result (OpenRouterProvider.generate
                   (OpenRouterProvider.new (sdk_throwing openai_429) env_keys None None)
                   x None)
         <> Thrown (new_Error (js "OpenRouter rate limit exceeded"))).
Proof.
  split.
  - apply (OpenRouter_misses_the_status_of_SDK_errors
             (OpenRouterProvider.new (sdk_throwing openai_401) env_keys None None)
             x None openai_401); reflexivity.
  - apply (OpenRouter_misses_the_status_of_SDK_errors
             (OpenRouterProvider.new (sdk_throwing openai_429) env_keys None None)
             x None openai_429); reflexivity.
Defined.
